(** * Book-swap backend: swap workflow and review rating

    A shallow embedding of the swap life cycle ([src/models/Swap.js],
    [src/routes/swaps.js]), of the book ownership check (the Book model)
    and of the review and rating code ([src/models/Review.js] and the
    reviews router), followed by the properties proved about them.

    Modelling conventions.
    - A MongoDB collection is a finite map from document ids to records;
      the database is the record [Db] of the four collections.
    - A route handler is a function from the request (actor, parameters,
      body, clock) and the database to a reply and the new database.
      Request bodies are taken after the express-validator rules passed.
    - [findByIdAndUpdate] on an absent id changes nothing ([alter]).
    - A JavaScript exception is the [Throw] case of [js]; the [try/catch]
      of a handler turns it into the 500 reply.
    - Counters and ratings are integers and the average rating is a
      rational; the view counter, which the code adds to as a double,
      is rounded to the nearest double after each addition.
    - A Mongoose document is the pair of its persisted value and its
      current value; [isNew] and [isModified] compare the two.  A
      pre-save hook reads them as they stand when [save] is called; by
      the time a post-save hook runs the write has reset them: the
      persisted value is the current one and the document is not new.
    - Timestamps ([createdAt], [updatedAt]) are left out, and so is
      [populate] where it only decorates the reply; where the handler
      goes on to call a method of the populated document, the populated
      fields are modelled. *)

From Stdlib Require Import ZArith QArith Qround Lqa.
From stdpp Require Import gmap list fin_maps strings.

Abbreviation ObjectId := N.
Abbreviation Date := Z.

(** ** Exceptions *)

Inductive exn := TypeError | ValidationError.

Inductive js (A : Type) : Type :=
| Ret (a : A)
| Throw (e : exn).
Arguments Ret {A} a.
Arguments Throw {A} e.

(** ** Data model *)

Inductive SwapStatus := pending | accepted | declined | completed | cancelled.

#[global] Instance SwapStatus_eq_dec : EqDecision SwapStatus.
Proof. solve_decision. Defined.

Inductive Role := user | admin.

#[global] Instance Role_eq_dec : EqDecision Role.
Proof. solve_decision. Defined.

Module Book.

Record t := mk {
  title : string;
  owner : option ObjectId;      (* null for an anonymous listing *)
  ownerEmail : string;
  isAvailable : bool;
  isActive : bool;
  viewCount : Z;
  swapCount : Z
}.

(** [{ isAvailable: v }] *)
Definition set_isAvailable (v : bool) (b : t) : t :=
  mk (title b) (owner b) (ownerEmail b) v (isActive b) (viewCount b) (swapCount b).

(** [{ $inc: { swapCount: 1 } }] *)
Definition inc_swapCount (b : t) : t :=
  mk (title b) (owner b) (ownerEmail b) (isAvailable b) (isActive b)
     (viewCount b) (swapCount b + 1)%Z.

(** [bookSchema.methods.canEdit]: [this.owner.toString() === userId.toString()];
    [toString] of a null owner raises a TypeError. *)
Definition canEdit (b : t) (userId : ObjectId) : js bool :=
  match owner b with
  | None => Throw TypeError
  | Some o => Ret (bool_decide (o = userId))
  end.

End Book.

Module User.

Record t := mk {
  role : Role;
  rating : Q;
  totalRatings : Z;
  totalSwaps : Z
}.

(** [{ $inc: { totalSwaps: 1 } }] *)
Definition inc_totalSwaps (u : t) : t :=
  mk (role u) (rating u) (totalRatings u) (totalSwaps u + 1)%Z.

(** [{ rating: r, totalRatings: n }] *)
Definition set_rating (r : Q) (n : Z) (u : t) : t :=
  mk (role u) r n (totalSwaps u).

End User.

Module Swap.

Record t := mk {
  requester : ObjectId;
  owner : ObjectId;
  requestedBook : ObjectId;
  offeredBook : ObjectId;
  status : SwapStatus;
  message : string;
  responseMessage : string;
  meetingLocation : option string;
  meetingDate : option Date;
  completedAt : option Date;
  expiresAt : Date;
  isActive : bool
}.

Definition set_status (st : SwapStatus) (s : t) : t :=
  mk (requester s) (owner s) (requestedBook s) (offeredBook s) st (message s)
     (responseMessage s) (meetingLocation s) (meetingDate s) (completedAt s)
     (expiresAt s) (isActive s).

Definition set_responseMessage (m : string) (s : t) : t :=
  mk (requester s) (owner s) (requestedBook s) (offeredBook s) (status s)
     (message s) m (meetingLocation s) (meetingDate s) (completedAt s)
     (expiresAt s) (isActive s).

Definition set_meetingLocation (l : string) (s : t) : t :=
  mk (requester s) (owner s) (requestedBook s) (offeredBook s) (status s)
     (message s) (responseMessage s) (Some l) (meetingDate s) (completedAt s)
     (expiresAt s) (isActive s).

Definition set_meetingDate (dt : Date) (s : t) : t :=
  mk (requester s) (owner s) (requestedBook s) (offeredBook s) (status s)
     (message s) (responseMessage s) (meetingLocation s) (Some dt)
     (completedAt s) (expiresAt s) (isActive s).

Definition set_completedAt (dt : Date) (s : t) : t :=
  mk (requester s) (owner s) (requestedBook s) (offeredBook s) (status s)
     (message s) (responseMessage s) (meetingLocation s) (meetingDate s)
     (Some dt) (expiresAt s) (isActive s).

(** [swapSchema.methods.isExpired]:
    [this.expiresAt < new Date() && this.status === 'pending'] *)
Definition isExpired (s : t) (now : Date) : bool :=
  (expiresAt s <? now)%Z && bool_decide (status s = pending).

(** [swapSchema.methods.canModify] *)
Definition canModify (s : t) (userId : ObjectId) : bool :=
  bool_decide (requester s = userId) || bool_decide (owner s = userId).

(** [swapSchema.methods.isOwner] *)
Definition isOwner (s : t) (userId : ObjectId) : bool :=
  bool_decide (owner s = userId).

(** [swapSchema.methods.isRequester] *)
Definition isRequester (s : t) (userId : ObjectId) : bool :=
  bool_decide (requester s = userId).

End Swap.

Module Review.

Record t := mk {
  reviewer : ObjectId;
  reviewee : ObjectId;
  swap : ObjectId;
  rating : Z;
  comment : string;
  isActive : bool
}.

Definition set_rating (r : Z) (v : t) : t :=
  mk (reviewer v) (reviewee v) (swap v) r (comment v) (isActive v).

Definition set_comment (c : string) (v : t) : t :=
  mk (reviewer v) (reviewee v) (swap v) (rating v) c (isActive v).

Definition set_isActive (a : bool) (v : t) : t :=
  mk (reviewer v) (reviewee v) (swap v) (rating v) (comment v) a.

(** [reviewSchema.methods.canEdit] *)
Definition canEdit (v : t) (userId : ObjectId) : bool :=
  bool_decide (reviewer v = userId).

End Review.

(** ** The database *)

Record Db := mkDb {
  books : gmap N Book.t;
  users : gmap N User.t;
  swaps : gmap N Swap.t;
  reviews : gmap N Review.t
}.

Definition with_books (f : gmap N Book.t -> gmap N Book.t) (d : Db) : Db :=
  mkDb (f (books d)) (users d) (swaps d) (reviews d).

Definition with_users (f : gmap N User.t -> gmap N User.t) (d : Db) : Db :=
  mkDb (books d) (f (users d)) (swaps d) (reviews d).

Definition with_swaps (f : gmap N Swap.t -> gmap N Swap.t) (d : Db) : Db :=
  mkDb (books d) (users d) (f (swaps d)) (reviews d).

Definition with_reviews (f : gmap N Review.t -> gmap N Review.t) (d : Db) : Db :=
  mkDb (books d) (users d) (swaps d) (f (reviews d)).

(** [Book.findByIdAndUpdate(id, update)] *)
Definition Book_findByIdAndUpdate (id : ObjectId) (f : Book.t -> Book.t) : Db -> Db :=
  with_books (alter f id).

(** [User.findByIdAndUpdate(id, update)] *)
Definition User_findByIdAndUpdate (id : ObjectId) (f : User.t -> User.t) : Db -> Db :=
  with_users (alter f id).

(** [Model.findOne(query)], as far as the handlers use it: they only test
    whether some document matches. *)
Definition findOne {A : Type} (query : A -> bool) (c : gmap N A) : option (N * A) :=
  head (filter (fun kv => query kv.2 = true) (map_to_list c)).

(** ** Replies of the handlers

    One constructor per response the routers send; [http_status] is the
    status code of the response and [kind] its place in the error
    taxonomy of the specification. *)

Inductive reply :=
| SwapCreated (id : ObjectId)  (* 201 Swap request sent successfully *)
| SwapAccepted                 (* 200 Swap request accepted successfully *)
| SwapDeclined                 (* 200 Swap request declined *)
| SwapCompleted                (* 200 Swap marked as completed *)
| SwapCancelled                (* 200 Swap request cancelled *)
| SwapNotFound                 (* 404 Swap not found *)
| RequestedBookNotAvailable    (* 400 Requested book is not available *)
| OfferedBookNotAvailable      (* 400 Offered book is not available *)
| OfferOnlyOwnBooks            (* 403 You can only offer books you own *)
| CannotRequestOwnBook         (* 400 You cannot request your own book *)
| AlreadyPendingRequest        (* 400 You already have a pending swap request for these books *)
| OnlyOwnerCanAccept           (* 403 Only the book owner can accept swap requests *)
| OnlyOwnerCanDecline          (* 403 Only the book owner can decline swap requests *)
| NotAuthorizedToComplete      (* 403 Not authorized to complete this swap *)
| OnlyRequesterCanCancel       (* 403 Only the requester can cancel swap requests *)
| NoLongerPending              (* 400 This swap request is no longer pending *)
| SwapExpired                  (* 400 This swap request has expired *)
| OnlyAcceptedCanBeCompleted   (* 400 Only accepted swaps can be completed *)
| CannotBeCancelled            (* 400 This swap cannot be cancelled *)
| ReviewCreated (id : ObjectId) (* 201 Review created successfully *)
| ReviewUpdated                (* 200 Review updated successfully *)
| ReviewDeleted                (* 200 Review deleted successfully *)
| OnlyReviewCompleted          (* 400 Can only review completed swaps *)
| NotAuthorizedToReview        (* 403 Not authorized to review this swap *)
| InvalidReviewee              (* 400 Invalid reviewee for this swap *)
| AlreadyReviewed              (* 400 You have already reviewed this swap *)
| ReviewNotFound               (* 404 Review not found *)
| NotAuthorizedToEditReview    (* 403 Not authorized to edit this review *)
| NotAuthorizedToDeleteReview  (* 403 Not authorized to delete this review *)
| ServerError                  (* 500 Server error while ... *).

#[global] Instance reply_eq_dec : EqDecision reply.
Proof. solve_decision. Defined.

Definition http_status (r : reply) : Z :=
  match r with
  | SwapCreated _ | ReviewCreated _ => 201
  | SwapAccepted | SwapDeclined | SwapCompleted | SwapCancelled
  | ReviewUpdated | ReviewDeleted => 200
  | SwapNotFound | ReviewNotFound => 404
  | OfferOnlyOwnBooks | OnlyOwnerCanAccept | OnlyOwnerCanDecline
  | NotAuthorizedToComplete | OnlyRequesterCanCancel | NotAuthorizedToReview
  | NotAuthorizedToEditReview | NotAuthorizedToDeleteReview => 403
  | RequestedBookNotAvailable | OfferedBookNotAvailable | CannotRequestOwnBook
  | AlreadyPendingRequest | NoLongerPending | SwapExpired
  | OnlyAcceptedCanBeCompleted | CannotBeCancelled | OnlyReviewCompleted
  | InvalidReviewee | AlreadyReviewed => 400
  | ServerError => 500
  end%Z.

Inductive ErrorKind :=
| NotFound | Forbidden | InvalidTransition | PreconditionFailed | Conflict.

#[global] Instance ErrorKind_eq_dec : EqDecision ErrorKind.
Proof. solve_decision. Defined.

(** The defined errors; success replies and the generic 500 have none. *)
Definition kind (r : reply) : option ErrorKind :=
  match r with
  | SwapNotFound | ReviewNotFound => Some NotFound
  | OfferOnlyOwnBooks | OnlyOwnerCanAccept | OnlyOwnerCanDecline
  | NotAuthorizedToComplete | OnlyRequesterCanCancel | NotAuthorizedToReview
  | NotAuthorizedToEditReview | NotAuthorizedToDeleteReview => Some Forbidden
  | NoLongerPending | SwapExpired | OnlyAcceptedCanBeCompleted
  | CannotBeCancelled => Some InvalidTransition
  | RequestedBookNotAvailable | OfferedBookNotAvailable | CannotRequestOwnBook
  | OnlyReviewCompleted | InvalidReviewee => Some PreconditionFailed
  | AlreadyPendingRequest | AlreadyReviewed => Some Conflict
  | SwapCreated _ | SwapAccepted | SwapDeclined | SwapCompleted | SwapCancelled
  | ReviewCreated _ | ReviewUpdated | ReviewDeleted | ServerError => None
  end.

Definition is_success (r : reply) : bool :=
  bool_decide (http_status r = 200%Z) || bool_decide (http_status r = 201%Z).

(** ** Swap model: save hook and methods ([src/models/Swap.js]) *)

(** [this.isModified('status')] of a swap document whose persisted value
    is [orig] ([None] for a document made by [new Swap]: its status is the
    schema default, which Mongoose does not count as modified). *)
Definition Swap_isModified_status (orig : option Swap.t) (s : Swap.t) : bool :=
  match orig with
  | Some o => negb (bool_decide (Swap.status o = Swap.status s))
  | None => false
  end.

(** [swapSchema.pre('save')] *)
Definition swap_pre_save (orig : option Swap.t) (s : Swap.t) (d : Db) : Db :=
  if Swap_isModified_status orig s then
    match Swap.status s with
    | accepted =>
        let d := Book_findByIdAndUpdate (Swap.requestedBook s) (Book.set_isAvailable false) d in
        Book_findByIdAndUpdate (Swap.offeredBook s) (Book.set_isAvailable false) d
    | completed =>
        let d := Book_findByIdAndUpdate (Swap.requestedBook s) Book.inc_swapCount d in
        let d := Book_findByIdAndUpdate (Swap.offeredBook s) Book.inc_swapCount d in
        let d := User_findByIdAndUpdate (Swap.requester s) User.inc_totalSwaps d in
        User_findByIdAndUpdate (Swap.owner s) User.inc_totalSwaps d
    | declined | cancelled =>
        let d := Book_findByIdAndUpdate (Swap.requestedBook s) (Book.set_isAvailable true) d in
        Book_findByIdAndUpdate (Swap.offeredBook s) (Book.set_isAvailable true) d
    | pending => d
    end
  else d.

(** [swap.save()]: the pre-save hook, then the document is written. *)
Definition Swap_save (id : ObjectId) (orig : option Swap.t) (s : Swap.t) (d : Db) : Db :=
  with_swaps (insert id s) (swap_pre_save orig s d).

(** A string used as a condition: the empty string is falsy. *)
Definition truthy (o : option string) : option string :=
  match o with
  | Some s => if bool_decide (s = EmptyString) then None else Some s
  | None => None
  end.

(** The [meetingDetails] object built by the accept route. *)
Record MeetingDetails := mkMeeting {
  location : option string;
  date : option Date
}.

(** [swapSchema.methods.accept] *)
Definition Swap_accept (id : ObjectId) (orig : Swap.t)
    (responseMessage : option string) (meetingDetails : MeetingDetails) (d : Db) : Db :=
  let s := Swap.set_status accepted orig in
  let s := Swap.set_responseMessage (default EmptyString responseMessage) s in
  let s := match truthy (location meetingDetails) with
           | Some l => Swap.set_meetingLocation l s
           | None => s
           end in
  let s := match date meetingDetails with
           | Some dt => Swap.set_meetingDate dt s
           | None => s
           end in
  Swap_save id (Some orig) s d.

(** [swapSchema.methods.decline] *)
Definition Swap_decline (id : ObjectId) (orig : Swap.t)
    (responseMessage : option string) (d : Db) : Db :=
  let s := Swap.set_status declined orig in
  let s := Swap.set_responseMessage (default EmptyString responseMessage) s in
  Swap_save id (Some orig) s d.

(** [swapSchema.methods.complete] *)
Definition Swap_complete (id : ObjectId) (orig : Swap.t) (now : Date) (d : Db) : Db :=
  let s := Swap.set_status completed orig in
  let s := Swap.set_completedAt now s in
  Swap_save id (Some orig) s d.

(** [swapSchema.methods.cancel] *)
Definition Swap_cancel (id : ObjectId) (orig : Swap.t) (d : Db) : Db :=
  Swap_save id (Some orig) (Swap.set_status cancelled orig) d.

(** ** Swap routes ([src/routes/swaps.js]) *)

(** The value of the [expiresAt] default: seven days from now. *)
Definition expiresAt_default (now : Date) : Date :=
  (now + 7 * 24 * 60 * 60 * 1000)%Z.

(** The body of the [try] block of [POST /api/swaps]. *)
Definition createSwap_try (actor requestedBookId offeredBookId : ObjectId)
    (message : string) (now : Date) (d : Db) : js (reply * Db) :=
  match books d !! requestedBookId with
  | None => Ret (RequestedBookNotAvailable, d)
  | Some requestedBook =>
  if negb (Book.isActive requestedBook) || negb (Book.isAvailable requestedBook)
  then Ret (RequestedBookNotAvailable, d) else
  match books d !! offeredBookId with
  | None => Ret (OfferedBookNotAvailable, d)
  | Some offeredBook =>
  if negb (Book.isActive offeredBook) || negb (Book.isAvailable offeredBook)
  then Ret (OfferedBookNotAvailable, d) else
  match Book.canEdit offeredBook actor with
  | Throw e => Throw e
  | Ret false => Ret (OfferOnlyOwnBooks, d)
  | Ret true =>
  match Book.canEdit requestedBook actor with
  | Throw e => Throw e
  | Ret true => Ret (CannotRequestOwnBook, d)
  | Ret false =>
  let existingSwap :=
    findOne (fun s =>
      bool_decide (Swap.requester s = actor)
      && bool_decide (Swap.requestedBook s = requestedBookId)
      && bool_decide (Swap.offeredBook s = offeredBookId)
      && bool_decide (Swap.status s = pending)
      && Swap.isActive s) (swaps d) in
  match existingSwap with
  | Some _ => Ret (AlreadyPendingRequest, d)
  | None =>
  match Book.owner requestedBook with
  | None => Throw ValidationError   (* [owner] is required by the swap schema *)
  | Some bookOwner =>
  let id := fresh (dom (swaps d)) in
  let swap := Swap.mk actor bookOwner requestedBookId offeredBookId pending
                message EmptyString None None None (expiresAt_default now) true in
  Ret (SwapCreated id, Swap_save id None swap d)
  end end end end end end.

(** [POST /api/swaps]: the [catch] answers 500 and writes nothing. *)
Definition createSwap (actor requestedBookId offeredBookId : ObjectId)
    (message : string) (now : Date) (d : Db) : reply * Db :=
  match createSwap_try actor requestedBookId offeredBookId message now d with
  | Ret r => r
  | Throw _ => (ServerError, d)
  end.

(** The body of an accept request. *)
Record AcceptBody := mkAcceptBody {
  body_responseMessage : option string;
  body_meetingLocation : option string;
  body_meetingDate : option Date
}.

(** [PUT /api/swaps/:id/accept] *)
Definition acceptSwap (actor id : ObjectId) (body : AcceptBody) (now : Date)
    (d : Db) : reply * Db :=
  match swaps d !! id with
  | None => (SwapNotFound, d)
  | Some swap =>
  if negb (Swap.isOwner swap actor) then (OnlyOwnerCanAccept, d) else
  if negb (bool_decide (Swap.status swap = pending)) then (NoLongerPending, d) else
  if Swap.isExpired swap now then (SwapExpired, d) else
  let meetingDetails :=
    mkMeeting (truthy (body_meetingLocation body)) (body_meetingDate body) in
  (SwapAccepted, Swap_accept id swap (body_responseMessage body) meetingDetails d)
  end.

(** [PUT /api/swaps/:id/decline] *)
Definition declineSwap (actor id : ObjectId) (responseMessage : option string)
    (d : Db) : reply * Db :=
  match swaps d !! id with
  | None => (SwapNotFound, d)
  | Some swap =>
  if negb (Swap.isOwner swap actor) then (OnlyOwnerCanDecline, d) else
  if negb (bool_decide (Swap.status swap = pending)) then (NoLongerPending, d) else
  (SwapDeclined, Swap_decline id swap responseMessage d)
  end.

(** [PUT /api/swaps/:id/complete] *)
Definition completeSwap (actor id : ObjectId) (now : Date) (d : Db) : reply * Db :=
  match swaps d !! id with
  | None => (SwapNotFound, d)
  | Some swap =>
  if negb (Swap.canModify swap actor) then (NotAuthorizedToComplete, d) else
  if negb (bool_decide (Swap.status swap = accepted)) then (OnlyAcceptedCanBeCompleted, d) else
  (SwapCompleted, Swap_complete id swap now d)
  end.

(** [PUT /api/swaps/:id/cancel] *)
Definition cancelSwap (actor id : ObjectId) (d : Db) : reply * Db :=
  match swaps d !! id with
  | None => (SwapNotFound, d)
  | Some swap =>
  if negb (Swap.isRequester swap actor) then (OnlyRequesterCanCancel, d) else
  if negb (bool_decide (Swap.status swap = pending)
           || bool_decide (Swap.status swap = accepted))
  then (CannotBeCancelled, d) else
  (SwapCancelled, Swap_cancel id swap d)
  end.

(** ** Review model: rating aggregate and save hook ([src/models/Review.js]) *)

(** The result of [calculateUserRating]. *)
Record RatingData := mkRatingData {
  averageRating : Q;
  totalReviews : Z
}.

(** [Math.round]: the nearest integer, a half going up. *)
Definition Math_round (x : Q) : Z := Qfloor (x + (1 # 2))%Q.

(** The [$match] stage of the aggregation: the active reviews of [userId]. *)
Definition match_stage (userId : ObjectId) (d : Db) : list Review.t :=
  filter (fun v => Review.reviewee v = userId /\ Review.isActive v = true)
         (map_to_list (reviews d)).*2.

(** [$sum] of the ratings of the matched documents. *)
Definition sum_ratings (l : list Review.t) : Z :=
  foldr (fun v acc => (Review.rating v + acc)%Z) 0%Z l.

(** The [$group] stage with [_id: null]: one group holding the average
    and the count when at least one document matched, no group otherwise. *)
Definition group_stage (l : list Review.t) : list (Q * Z) :=
  match l with
  | [] => []
  | _ :: _ =>
      let n := Z.of_nat (length l) in
      [ ((inject_Z (sum_ratings l) / inject_Z n)%Q, n) ]
  end.

(** [reviewSchema.statics.calculateUserRating] *)
Definition calculateUserRating (userId : ObjectId) (d : Db) : RatingData :=
  match group_stage (match_stage userId d) with
  | (avg, total) :: _ =>
      mkRatingData (inject_Z (Math_round (avg * inject_Z 10)) / inject_Z 10)%Q total
  | [] => mkRatingData 0%Q 0%Z
  end.

(** [this.isNew] of a review document whose persisted value is [orig]:
    true until the document has been saved. *)
Definition Review_isNew (orig : option Review.t) : bool :=
  match orig with
  | None => true
  | Some _ => false
  end.

(** [this.isModified('rating')] of a review document whose persisted
    value is [orig]: the rating differs from the persisted one, or was
    given to the constructor of a document not saved yet. *)
Definition Review_isModified_rating (orig : option Review.t) (v : Review.t) : bool :=
  match orig with
  | Some o => negb (bool_decide (Review.rating o = Review.rating v))
  | None => true
  end.

(** [reviewSchema.post('save')], run on the document as it is after the
    write; [orig] is the persisted value the document tracks then. *)
Definition review_post_save (orig : option Review.t) (v : Review.t) (d : Db) : Db :=
  if Review_isModified_rating orig v || Review_isNew orig then
    let ratingData := calculateUserRating (Review.reviewee v) d in
    User_findByIdAndUpdate (Review.reviewee v)
      (User.set_rating (averageRating ratingData) (totalReviews ratingData)) d
  else d.

(** [reviewSchema.post('remove')] *)
Definition review_post_remove (v : Review.t) (d : Db) : Db :=
  let ratingData := calculateUserRating (Review.reviewee v) d in
  User_findByIdAndUpdate (Review.reviewee v)
    (User.set_rating (averageRating ratingData) (totalReviews ratingData)) d.

(** [review.save()] of a document whose persisted value was [orig]: the
    document is written and its change tracking is reset, so that the
    value [v] just written is the persisted one; then the post-save hook
    runs on that document. *)
Definition Review_save (id : ObjectId) (orig : option Review.t) (v : Review.t)
    (d : Db) : Db :=
  review_post_save (Some v) v (with_reviews (insert id v) d).

(** ** Review routes (the reviews router) *)

(** [POST /api/reviews] *)
Definition createReview (actor swapId revieweeId : ObjectId) (rating : Z)
    (comment : string) (d : Db) : reply * Db :=
  match swaps d !! swapId with
  | None => (SwapNotFound, d)
  | Some swap =>
  if negb (bool_decide (Swap.status swap = completed)) then (OnlyReviewCompleted, d) else
  if negb (Swap.canModify swap actor) then (NotAuthorizedToReview, d) else
  let isValidReviewee :=
    (bool_decide (Swap.requester swap = revieweeId) && bool_decide (Swap.owner swap = actor))
    || (bool_decide (Swap.owner swap = revieweeId) && bool_decide (Swap.requester swap = actor)) in
  if negb isValidReviewee then (InvalidReviewee, d) else
  let existingReview :=
    findOne (fun v =>
      bool_decide (Review.reviewer v = actor)
      && bool_decide (Review.reviewee v = revieweeId)
      && bool_decide (Review.swap v = swapId)) (reviews d) in
  match existingReview with
  | Some _ => (AlreadyReviewed, d)
  | None =>
  let id := fresh (dom (reviews d)) in
  let review := Review.mk actor revieweeId swapId rating comment true in
  (ReviewCreated id, Review_save id None review d)
  end end.

(** [PUT /api/reviews/:id] *)
Definition updateReview (actor id : ObjectId) (rating : option Z)
    (comment : option string) (d : Db) : reply * Db :=
  match reviews d !! id with
  | None => (ReviewNotFound, d)
  | Some review =>
  if negb (Review.isActive review) then (ReviewNotFound, d) else
  if negb (Review.canEdit review actor) then (NotAuthorizedToEditReview, d) else
  let v := match rating with Some r => Review.set_rating r review | None => review end in
  let v := match comment with Some c => Review.set_comment c v | None => v end in
  (ReviewUpdated, Review_save id (Some review) v d)
  end.

(** [DELETE /api/reviews/:id] (soft delete) *)
Definition deleteReview (actor : ObjectId) (actorRole : Role) (id : ObjectId)
    (d : Db) : reply * Db :=
  match reviews d !! id with
  | None => (ReviewNotFound, d)
  | Some review =>
  if negb (Review.isActive review) then (ReviewNotFound, d) else
  if negb (Review.canEdit review actor) && negb (bool_decide (actorRole = admin))
  then (NotAuthorizedToDeleteReview, d) else
  (ReviewDeleted, Review_save id (Some review) (Review.set_isActive false review) d)
  end.

(** ** The state machine and the requests, as the specification names them *)

(** The terminal states of the state machine. *)
Definition terminal (st : SwapStatus) : bool :=
  match st with
  | declined | completed | cancelled => true
  | pending | accepted => false
  end.

(** The four transition requests on an existing swap. *)
Inductive SwapOp :=
| OpAccept (body : AcceptBody)
| OpDecline (responseMessage : option string)
| OpComplete
| OpCancel.

(** The router: which handler serves which request. *)
Definition run_op (op : SwapOp) (actor id : ObjectId) (now : Date) (d : Db) : reply * Db :=
  match op with
  | OpAccept body => acceptSwap actor id body now d
  | OpDecline responseMessage => declineSwap actor id responseMessage d
  | OpComplete => completeSwap actor id now d
  | OpCancel => cancelSwap actor id d
  end.

(** The actor the transition table allows for each request: the owner for
    accept and decline, either party for complete, the requester for
    cancel. *)
Definition allowed_actor (op : SwapOp) (s : Swap.t) (actor : ObjectId) : bool :=
  match op with
  | OpAccept _ | OpDecline _ => Swap.isOwner s actor
  | OpComplete => Swap.canModify s actor
  | OpCancel => Swap.isRequester s actor
  end.

(** The checks of [POST /api/swaps] that come before the duplicate check:
    both books exist, are active and available, the requester owns the
    offered book and does not own the requested one. *)
Definition passes_book_checks (actor rb ob : ObjectId) (d : Db) : Prop :=
  exists rbk obk o,
    books d !! rb = Some rbk /\ books d !! ob = Some obk
    /\ Book.isActive rbk = true /\ Book.isAvailable rbk = true
    /\ Book.isActive obk = true /\ Book.isAvailable obk = true
    /\ Book.owner obk = Some actor
    /\ Book.owner rbk = Some o /\ o <> actor.

(** The mean of a list of ratings. *)
Definition mean (rs : list Z) : Q :=
  (inject_Z (foldr Z.add 0%Z rs) / inject_Z (Z.of_nat (length rs)))%Q.

(** [y] is [x] rounded to one decimal: [y] is a whole number of tenths and
    [x] lies within a twentieth of it, a tie going to the upper tenth. *)
Definition rounded_to_one_decimal (x y : Q) : Prop :=
  exists t : Z,
    (y == inject_Z t / 10
     /\ inject_Z t / 10 - 1 / 20 <= x
     /\ x < inject_Z t / 10 + 1 / 20)%Q.

(** One request served by the backend.  The last case stands for the
    routes that write neither swaps nor reviews (books, users, the
    read-only routes); the admin's review deletion is the soft delete with
    the admin role. *)
Inductive step : Db -> Db -> Prop :=
| step_createSwap actor rb ob msg now d :
    step d (createSwap actor rb ob msg now d).2
| step_swap_op op actor id now d :
    step d (run_op op actor id now d).2
| step_createReview actor swapId revieweeId rating comment d :
    step d (createReview actor swapId revieweeId rating comment d).2
| step_updateReview actor id rating comment d :
    step d (updateReview actor id rating comment d).2
| step_deleteReview actor actorRole id d :
    step d (deleteReview actor actorRole id d).2
| step_other d d' :
    swaps d' = swaps d -> reviews d' = reviews d -> step d d'.

(** The swap of a review is completed and its two parties are the
    reviewer and the reviewee, in opposing roles. *)
Definition review_ok (d : Db) (v : Review.t) : Prop :=
  exists s, swaps d !! Review.swap v = Some s
    /\ Swap.status s = completed
    /\ ((Swap.requester s = Review.reviewee v /\ Swap.owner s = Review.reviewer v)
        \/ (Swap.owner s = Review.reviewee v /\ Swap.requester s = Review.reviewer v)).

Definition reviews_ok (d : Db) : Prop :=
  forall id v, reviews d !! id = Some v -> review_ok d v.

(** Two reviews of the same (reviewer, reviewee, swap) triple. *)
Definition same_triple (v w : Review.t) : Prop :=
  Review.reviewer v = Review.reviewer w
  /\ Review.reviewee v = Review.reviewee w
  /\ Review.swap v = Review.swap w.

(** ** Scenarios

    First scenario: user 1 lists book 11 and user 2 lists book 12.  User 2
    asks for 11 offering 12 (swap 0, [db1]), user 1 accepts ([db2]), user 2
    completes ([db3]), user 2 reviews user 1 with rating 4 (review 0,
    [db4]) and then deletes that review ([db5]). *)

Definition book_of (o : option ObjectId) : Book.t :=
  Book.mk "t" o "a@b.cd" true true 0%Z 0%Z.

Definition new_user : User.t := User.mk user 0%Q 0%Z 0%Z.

Definition db0 : Db :=
  mkDb (<[11%N := book_of (Some 1%N)]> (<[12%N := book_of (Some 2%N)]> ∅))
       (<[1%N := new_user]> (<[2%N := new_user]> ∅))
       ∅ ∅.

Definition no_body : AcceptBody := mkAcceptBody None None None.

Definition db1 : Db := (createSwap 2 11 12 "" 1000 db0).2.
Definition db2 : Db := (acceptSwap 1 0 no_body 2000 db1).2.
Definition db3 : Db := (completeSwap 2 0 3000 db2).2.
Definition db4 : Db := (createReview 2 0 1 4 "" db3).2.
Definition db5 : Db := (deleteReview 2 user 0 db4).2.

(** A declined swap: swap 0 of the scenario, declined by its owner. *)
Definition db_declined : Db := (declineSwap 1 0 None db1).2.

(** A second scenario: users 1, 2 and 3 list books 21, 22 and 23.  User 2
    asks for 21 offering 22 (swap 0), user 3 asks for 21 offering 23
    (swap 1), user 2 asks for 23 offering 22 (swap 2, [dbA3]); then user 1
    accepts swap 0 ([dbA4]) and declines swap 1 ([dbA5]), and user 2
    cancels swap 2 ([dbA6]). *)
Definition dbA0 : Db :=
  mkDb (<[21%N := book_of (Some 1%N)]>
          (<[22%N := book_of (Some 2%N)]> (<[23%N := book_of (Some 3%N)]> ∅)))
       (<[1%N := new_user]> (<[2%N := new_user]> (<[3%N := new_user]> ∅)))
       ∅ ∅.

Definition dbA1 : Db := (createSwap 2 21 22 "" 1000 dbA0).2.
Definition dbA2 : Db := (createSwap 3 21 23 "" 1000 dbA1).2.
Definition dbA3 : Db := (createSwap 2 23 22 "" 1000 dbA2).2.
Definition dbA4 : Db := (acceptSwap 1 0 no_body 2000 dbA3).2.
Definition dbA5 : Db := (declineSwap 1 1 None dbA4).2.
Definition dbA6 : Db := (cancelSwap 2 2 dbA5).2.

(** A book listed anonymously: its [owner] is null. *)
Definition db_anon : Db :=
  mkDb (<[31%N := book_of None]> (<[32%N := book_of (Some 2%N)]>
          (<[33%N := book_of (Some 3%N)]> ∅)))
       (<[2%N := new_user]> (<[3%N := new_user]> ∅))
       ∅ ∅.

(** ** Read routes and queries of the swap router and model *)

(** The answer of a read route. *)
Inductive fetched (A : Type) : Type :=
| Fetched (a : A)      (* 200 with the document *)
| FetchNotFound        (* 404 *)
| FetchForbidden       (* 403 *)
| FetchServerError     (* 500 *).
Arguments Fetched {A} a.
Arguments FetchNotFound {A}.
Arguments FetchForbidden {A}.
Arguments FetchServerError {A}.

(** [.populate(path, ...)] of a user reference: the referenced user
    document, or null when no user has the id. *)
Definition populate_user (id : ObjectId) (d : Db) : option User.t :=
  users d !! id.

(** [swapSchema.methods.canModify] on a swap whose [requester] and
    [owner] have been populated: [toString] of a null reference raises a
    TypeError, and [toString] of a populated document is the printed
    document, which is never the id string it is compared with. *)
Definition canModify_populated (requester owner : option User.t)
    (userId : ObjectId) : js bool :=
  match requester with
  | None => Throw TypeError
  | Some _ =>
      match owner with
      | None => Throw TypeError
      | Some _ => Ret false
      end
  end.

(** [GET /api/swaps/:id]: the swap is read with [requester] and [owner]
    populated, and [canModify] is called on that populated document. *)
Definition getSwap (actor id : ObjectId) (d : Db) : fetched Swap.t :=
  match swaps d !! id with
  | None => FetchNotFound
  | Some swap =>
  match canModify_populated (populate_user (Swap.requester swap) d)
                            (populate_user (Swap.owner swap) d) actor with
  | Throw _ => FetchServerError
  | Ret false => FetchForbidden
  | Ret true => Fetched swap
  end end.

(** The [type] parameter of [GET /api/swaps]. *)
Inductive ListType := sent | received | all.

(** The query object built by [GET /api/swaps]; with [all] and no status
    it is the query of [swapSchema.statics.findUserSwaps]. *)
Definition listSwaps_query (userId : ObjectId) (type : ListType)
    (status : option SwapStatus) (s : Swap.t) : bool :=
  Swap.isActive s
  && match type with
     | sent => bool_decide (Swap.requester s = userId)
     | received => bool_decide (Swap.owner s = userId)
     | all => bool_decide (Swap.requester s = userId)
              || bool_decide (Swap.owner s = userId)
     end
  && match status with
     | Some st => bool_decide (Swap.status s = st)
     | None => true
     end.

(** The query of [swapSchema.statics.findPendingSwaps], served by
    [GET /api/swaps/pending/received]. *)
Definition findPendingSwaps_query (userId : ObjectId) (now : Date) (s : Swap.t) : bool :=
  bool_decide (Swap.owner s = userId)
  && bool_decide (Swap.status s = pending)
  && Swap.isActive s
  && (now <? Swap.expiresAt s)%Z.

(** [Model.find(query)]: the documents a query selects.  The routes sort
    them by [createdAt], which is not modelled, so the result is kept as
    a collection. *)
Definition find {A : Type} (query : A -> bool) (c : gmap N A) : gmap N A :=
  filter (fun kv => query kv.2 = true) c.

(** [Model.countDocuments(query)] *)
Definition countDocuments {A : Type} (query : A -> bool) (c : gmap N A) : Z :=
  Z.of_nat (length (filter (fun kv : N * A => query kv.2 = true) (map_to_list c))).

(** ** Pagination of the list routes *)

(** [Math.ceil] *)
Definition Math_ceil (x : Q) : Z := Qceiling x.

(** The [pagination] object of the list routes ([totalSwaps],
    [totalReviews] or [totalBooks] is [total] here). *)
Record Pagination := mkPagination {
  currentPage : Z;
  totalPages : Z;
  total : Z;
  hasNext : bool;
  hasPrev : bool
}.

Definition pagination (page limit count : Z) : Pagination :=
  mkPagination page
    (Math_ceil (inject_Z count / inject_Z limit))
    count
    (page <? Math_ceil (inject_Z count / inject_Z limit))%Z
    (1 <? page)%Z.

(** [.skip((page - 1) * limit).limit(limit)] on the sorted result. *)
Definition skip_limit {A : Type} (page limit : Z) (l : list A) : list A :=
  take (Z.to_nat limit) (drop (Z.to_nat ((page - 1) * limit)) l).

(** ** Read routes of the reviews router *)

(** [GET /api/reviews/:id] *)
Definition getReview (id : ObjectId) (d : Db) : fetched Review.t :=
  match reviews d !! id with
  | None => FetchNotFound
  | Some review =>
  if negb (Review.isActive review) then FetchNotFound else Fetched review
  end.

(** The query of [GET /api/reviews/user/:userId] and of
    [reviewSchema.statics.findUserReviews]. *)
Definition userReviews_query (userId : ObjectId) (v : Review.t) : bool :=
  bool_decide (Review.reviewee v = userId) && Review.isActive v.

(** What [GET /api/reviews/user/:userId] reports beside the page of
    reviews: the rating statistics and the pagination. *)
Definition getUserReviews_stats (userId : ObjectId) (page limit : Z) (d : Db)
    : RatingData * Pagination :=
  let count := countDocuments (userReviews_query userId) (reviews d) in
  (calculateUserRating userId d, pagination page limit count).

(** The answers of [GET /api/reviews/swap/:swapId/eligible]. *)
Inductive eligibility :=
| EligibleSwapNotFound            (* 404 Swap not found *)
| NotCompleted                    (* canReview: false, Swap not completed *)
| NotInvolved                     (* canReview: false, Not involved in swap *)
| AlreadyReviewedSwap             (* canReview: false, Already reviewed *)
| CanReview (revieweeId : ObjectId).

(** [GET /api/reviews/swap/:swapId/eligible] *)
Definition eligible (actor swapId : ObjectId) (d : Db) : eligibility :=
  match swaps d !! swapId with
  | None => EligibleSwapNotFound
  | Some swap =>
  if negb (bool_decide (Swap.status swap = completed)) then NotCompleted else
  if negb (Swap.canModify swap actor) then NotInvolved else
  let otherPartyId :=
    if bool_decide (Swap.requester swap = actor) then Swap.owner swap
    else Swap.requester swap in
  let existingReview :=
    findOne (fun v =>
      bool_decide (Review.reviewer v = actor)
      && bool_decide (Review.reviewee v = otherPartyId)
      && bool_decide (Review.swap v = swapId)) (reviews d) in
  match existingReview with
  | Some _ => AlreadyReviewedSwap
  | None => CanReview otherPartyId
  end end.

(** ** Book routes (the books router and the admin router) *)

(** The double nearest to an integer, a tie going to the even
    significand.  Integers up to 2^53 in absolute value are doubles
    themselves; above, doubles are [2^e] apart with [e] growing with the
    magnitude.  (Overflow to Infinity, beyond 2^1024, is left out.) *)
Definition round_to_double (z : Z) : Z :=
  let a := Z.abs z in
  if (a <=? 2 ^ 53)%Z then z else
  let q := (2 ^ (Z.log2 a - 52))%Z in
  let k := (a / q)%Z in
  let r := (a mod q)%Z in
  let k' := if (2 * r <? q)%Z then k
            else if (q <? 2 * r)%Z then (k + 1)%Z
            else if Z.even k then k else (k + 1)%Z in
  (Z.sgn z * (k' * q))%Z.

(** [this.viewCount += 1]: an addition of doubles. *)
Definition Book_inc_viewCount (b : Book.t) : Book.t :=
  Book.mk (Book.title b) (Book.owner b) (Book.ownerEmail b) (Book.isAvailable b)
          (Book.isActive b) (round_to_double (Book.viewCount b + 1))
          (Book.swapCount b).

(** [book.isActive = v] *)
Definition Book_set_isActive (v : bool) (b : Book.t) : Book.t :=
  Book.mk (Book.title b) (Book.owner b) (Book.ownerEmail b) (Book.isAvailable b)
          v (Book.viewCount b) (Book.swapCount b).

(** [book.save()]: the book schema has no save hook. *)
Definition Book_save (id : ObjectId) (b : Book.t) : Db -> Db :=
  with_books (insert id b).

(** [GET /api/books/:id]: the book is served after
    [bookSchema.methods.incrementViewCount]. *)
Definition getBook (id : ObjectId) (d : Db) : fetched Book.t * Db :=
  match books d !! id with
  | None => (FetchNotFound, d)
  | Some book =>
  let book := Book_inc_viewCount book in
  (Fetched book, Book_save id book d)
  end.

(** The answers of the two delete routes for books. *)
Inductive book_reply :=
| BookDeleted                  (* 200 Book deleted successfully *)
| BookNotFound                 (* 404 Book not found *)
| NotAuthorizedToDeleteBook    (* 403 Not authorized to delete this book *)
| BookHasActiveSwaps           (* 400 Cannot delete book with active swap requests *)
| BookServerError              (* 500 Server error while deleting book *).

(** The body of the [try] block of [DELETE /api/books/:id]. *)
Definition deleteBook_try (actor id : ObjectId) (d : Db) : js (book_reply * Db) :=
  match books d !! id with
  | None => Ret (BookNotFound, d)
  | Some book =>
  match Book.canEdit book actor with
  | Throw e => Throw e
  | Ret false => Ret (NotAuthorizedToDeleteBook, d)
  | Ret true => Ret (BookDeleted, Book_save id (Book_set_isActive false book) d)
  end end.

(** [DELETE /api/books/:id] (soft delete) *)
Definition deleteBook (actor id : ObjectId) (d : Db) : book_reply * Db :=
  match deleteBook_try actor id d with
  | Ret r => r
  | Throw _ => (BookServerError, d)
  end.

(** The query of the active-swap guard of the admin's delete route. *)
Definition activeSwaps_query (bookId : ObjectId) (s : Swap.t) : bool :=
  (bool_decide (Swap.requestedBook s = bookId)
   || bool_decide (Swap.offeredBook s = bookId))
  && (bool_decide (Swap.status s = pending) || bool_decide (Swap.status s = accepted)).

(** [DELETE /api/admin/books/:id], after the admin check of the router. *)
Definition adminDeleteBook (id : ObjectId) (d : Db) : book_reply * Db :=
  match books d !! id with
  | None => (BookNotFound, d)
  | Some book =>
  if negb (Book.isActive book) then (BookNotFound, d) else
  let activeSwaps := countDocuments (activeSwaps_query id) (swaps d) in
  if (0 <? activeSwaps)%Z then (BookHasActiveSwaps, d) else
  (BookDeleted, Book_save id (Book_set_isActive false book) d)
  end.

(** ** The requests of the swap and review routers *)

Inductive Request :=
| ReqCreateSwap (actor requestedBookId offeredBookId : ObjectId) (message : string)
| ReqSwapOp (op : SwapOp) (actor id : ObjectId)
| ReqCreateReview (actor swapId revieweeId : ObjectId) (rating : Z) (comment : string)
| ReqUpdateReview (actor id : ObjectId) (rating : option Z) (comment : option string)
| ReqDeleteReview (actor : ObjectId) (actorRole : Role) (id : ObjectId).

(** The router: the handler that serves a request at time [now]. *)
Definition handle (req : Request) (now : Date) (d : Db) : reply * Db :=
  match req with
  | ReqCreateSwap actor rb ob message => createSwap actor rb ob message now d
  | ReqSwapOp op actor id => run_op op actor id now d
  | ReqCreateReview actor swapId revieweeId rating comment =>
      createReview actor swapId revieweeId rating comment d
  | ReqUpdateReview actor id rating comment => updateReview actor id rating comment d
  | ReqDeleteReview actor actorRole id => deleteReview actor actorRole id d
  end.

(** The source states a transition request requires, and the state it
    leads to, as the four handlers have them. *)
Definition source_ok (op : SwapOp) (st : SwapStatus) : bool :=
  match op with
  | OpAccept _ | OpDecline _ => bool_decide (st = pending)
  | OpComplete => bool_decide (st = accepted)
  | OpCancel => bool_decide (st = pending) || bool_decide (st = accepted)
  end.

Definition target (op : SwapOp) : SwapStatus :=
  match op with
  | OpAccept _ => accepted
  | OpDecline _ => declined
  | OpComplete => completed
  | OpCancel => cancelled
  end.

(** The fields of a swap that no transition writes. *)
Definition same_identity (s s' : Swap.t) : Prop :=
  Swap.requester s' = Swap.requester s
  /\ Swap.owner s' = Swap.owner s
  /\ Swap.requestedBook s' = Swap.requestedBook s
  /\ Swap.offeredBook s' = Swap.offeredBook s
  /\ Swap.message s' = Swap.message s
  /\ Swap.expiresAt s' = Swap.expiresAt s
  /\ Swap.isActive s' = Swap.isActive s.

(** The aggregate is a function of the sum and the number of the matched
    ratings. *)
Definition rating_of_stats (sum : Z) (n : nat) : RatingData :=
  match n with
  | O => mkRatingData 0%Q 0%Z
  | S _ =>
      mkRatingData
        (inject_Z (Math_round (inject_Z sum / inject_Z (Z.of_nat n) * inject_Z 10))
         / inject_Z 10)%Q
        (Z.of_nat n)
  end.

(** The user a review request may write: the reviewee of the review it
    creates or names. *)
Definition reviewee_of (req : Request) (d : Db) : option ObjectId :=
  match req with
  | ReqCreateReview _ _ revieweeId _ _ => Some revieweeId
  | ReqUpdateReview _ id _ _ | ReqDeleteReview _ _ id =>
      Review.reviewee <$> reviews d !! id
  | _ => None
  end.

(** The stored rating and count of a user agree with the aggregate of
    the user's active reviews. *)
Definition rating_synced (u : ObjectId) (d : Db) : Prop :=
  forall x, users d !! u = Some x ->
    User.rating x = averageRating (calculateUserRating u d)
    /\ User.totalRatings x = totalReviews (calculateUserRating u d).

(** * Properties *)

(** ** Queries and updates *)

(** The post-save hook of a saved document: neither flag of its guard
    holds, so it writes nothing. *)
Lemma review_post_save_saved (v : Review.t) (d : Db) :
  review_post_save (Some v) v d = d.
Proof.
  unfold review_post_save, Review_isModified_rating, Review_isNew.
  by rewrite bool_decide_eq_true_2.
Qed.

Lemma Review_save_writes_review id orig v d :
  Review_save id orig v d = with_reviews (insert id v) d.
Proof. unfold Review_save. apply review_post_save_saved. Qed.

Lemma findOne_None {A : Type} (query : A -> bool) (c : gmap N A) :
  findOne query c = None <-> forall k a, c !! k = Some a -> query a = false.
Proof.
  unfold findOne. rewrite head_None. split.
  - intros Hnil k a Hka.
    destruct (query a) eqn:Hq; [|done].
    exfalso. eapply (filter_nil_not_elem_of _ _ (k, a)); [exact Hnil| |].
    + exact Hq.
    + by apply elem_of_map_to_list.
  - intros Hall.
    destruct (filter _ _) as [|[k a] l] eqn:Hf; [done|].
    assert (Hin : (k, a) ∈ filter (fun kv : N * A => query kv.2 = true) (map_to_list c))
      by (rewrite Hf; left).
    apply list_elem_of_filter in Hin as [Hq Hin].
    apply elem_of_map_to_list in Hin. simpl in Hq.
    rewrite (Hall k a Hin) in Hq. discriminate.
Qed.

Lemma findOne_Some {A : Type} (query : A -> bool) (c : gmap N A) k a :
  findOne query c = Some (k, a) -> c !! k = Some a /\ query a = true.
Proof.
  unfold findOne. intros Hh.
  apply head_Some_elem_of, list_elem_of_filter in Hh as [Hq Hin].
  split; [by apply elem_of_map_to_list | exact Hq].
Qed.

Lemma findOne_found {A : Type} (query : A -> bool) (c : gmap N A) k a :
  c !! k = Some a -> query a = true -> is_Some (findOne query c).
Proof.
  intros Hka Hq. destruct (findOne query c) eqn:Hf; [by eexists|].
  rewrite findOne_None in Hf. rewrite (Hf k a Hka) in Hq. discriminate.
Qed.

(** Two updates of the availability flag, read back at any book. *)
Lemma books_set_isAvailable2 (v : bool) (i j b : N) (m : gmap N Book.t) :
  alter (Book.set_isAvailable v) j (alter (Book.set_isAvailable v) i m) !! b
  = if decide (b = i \/ b = j) then Book.set_isAvailable v <$> m !! b else m !! b.
Proof.
  rewrite lookup_alter.
  destruct (decide (j = b)) as [->|Hj]; rewrite lookup_alter;
    destruct (decide (i = b)) as [->|Hi];
    destruct (decide (_ \/ _)) as [Hd|Hd];
    try reflexivity; try (exfalso; intuition congruence).
  destruct (m !! b); reflexivity.
Qed.


(** What [save] does to each collection. *)
Lemma Swap_save_swaps id orig s d :
  swaps (Swap_save id orig s d) = <[id := s]> (swaps d).
Proof.
  unfold Swap_save, swap_pre_save.
  destruct (Swap_isModified_status orig s); [|done].
  by destruct (Swap.status s).
Qed.

Lemma Swap_save_reviews id orig s d :
  reviews (Swap_save id orig s d) = reviews d.
Proof.
  unfold Swap_save, swap_pre_save.
  destruct (Swap_isModified_status orig s); [|done].
  by destruct (Swap.status s).
Qed.

Lemma Swap_save_books_availability id orig s d v b :
  Swap_isModified_status orig s = true ->
  (v = false /\ Swap.status s = accepted)
  \/ (v = true /\ (Swap.status s = declined \/ Swap.status s = cancelled)) ->
  books (Swap_save id orig s d) !! b
  = if decide (b = Swap.requestedBook s \/ b = Swap.offeredBook s)
    then Book.set_isAvailable v <$> books d !! b
    else books d !! b.
Proof.
  intros Hmod Hv. unfold Swap_save, swap_pre_save. rewrite Hmod.
  destruct Hv as [[-> ->]|[-> [->| ->]]]; simpl; apply books_set_isAvailable2.
Qed.

Lemma Swap_save_users_unchanged id orig s d :
  Swap.status s <> completed -> users (Swap_save id orig s d) = users d.
Proof.
  intros Hst. unfold Swap_save, swap_pre_save.
  destruct (Swap_isModified_status orig s); [|done].
  by destruct (Swap.status s).
Qed.

(** The document that [accept] saves. *)
Lemma Swap_accept_doc id orig responseMessage meetingDetails d :
  exists s,
    Swap_accept id orig responseMessage meetingDetails d = Swap_save id (Some orig) s d
    /\ Swap.status s = accepted
    /\ Swap.requester s = Swap.requester orig
    /\ Swap.owner s = Swap.owner orig
    /\ Swap.requestedBook s = Swap.requestedBook orig
    /\ Swap.offeredBook s = Swap.offeredBook orig.
Proof.
  unfold Swap_accept.
  destruct (truthy (location meetingDetails)), (date meetingDetails);
    eexists; (split; [reflexivity|done]).
Qed.

(** ** Accepting a pending swap *)

(** C4: for a pending swap whose [expiresAt] has not passed, an accept by
    the swap's owner answers success, stores the swap with status
    [accepted], and sets [isAvailable] to false on the requested and the
    offered book (the other fields of the two books, and every other
    book, stay as they were). *)
Theorem accept_pending_unexpired (d : Db) (actor id : N) (s : Swap.t)
    (body : AcceptBody) (now : Z) :
  swaps d !! id = Some s ->
  Swap.status s = pending ->
  (now <= Swap.expiresAt s)%Z ->
  Swap.owner s = actor ->
  (acceptSwap actor id body now d).1 = SwapAccepted
  /\ Swap.status <$> swaps (acceptSwap actor id body now d).2 !! id = Some accepted
  /\ (forall b, books (acceptSwap actor id body now d).2 !! b
        = if decide (b = Swap.requestedBook s \/ b = Swap.offeredBook s)
          then Book.set_isAvailable false <$> books d !! b
          else books d !! b)
  /\ (forall b bk, b = Swap.requestedBook s \/ b = Swap.offeredBook s ->
        books (acceptSwap actor id body now d).2 !! b = Some bk ->
        Book.isAvailable bk = false).
Proof.
  intros Hs Hst Hexp Hown.
  assert (Hrun : acceptSwap actor id body now d
    = (SwapAccepted,
       Swap_accept id s (body_responseMessage body)
         (mkMeeting (truthy (body_meetingLocation body)) (body_meetingDate body)) d)).
  { unfold acceptSwap, Swap.isOwner, Swap.isExpired. rewrite Hs, Hst, Hown.
    rewrite !bool_decide_eq_true_2 by done. simpl.
    replace (Swap.expiresAt s <? now)%Z with false
      by (symmetry; apply Z.ltb_ge; lia). done. }
  rewrite Hrun. cbn [fst snd].
  destruct (Swap_accept_doc id s (body_responseMessage body)
    (mkMeeting (truthy (body_meetingLocation body)) (body_meetingDate body)) d)
    as (s' & -> & Hst' & _ & _ & Hrb & Hob).
  assert (Hbooks : forall b, books (Swap_save id (Some s) s' d) !! b
    = if decide (b = Swap.requestedBook s \/ b = Swap.offeredBook s)
      then Book.set_isAvailable false <$> books d !! b else books d !! b).
  { intros b. rewrite <- Hrb, <- Hob.
    apply Swap_save_books_availability; [|by left].
    simpl. by rewrite Hst, Hst'. }
  split; [done|]. split.
  - rewrite Swap_save_swaps, lookup_insert_eq. simpl. by rewrite Hst'.
  - split; [exact Hbooks|].
    intros b bk Hb Hbk. rewrite Hbooks in Hbk.
    rewrite decide_True in Hbk by done.
    destruct (books d !! b); simpl in Hbk; [|done]. by inversion Hbk.
Qed.
Lemma accept_pending_unexpired_witness :
  (acceptSwap 1 0 no_body 2000 db1).1 = SwapAccepted
  /\ Swap.status <$> swaps (acceptSwap 1 0 no_body 2000 db1).2 !! 0%N = Some accepted.
Proof.
  pose proof (accept_pending_unexpired db1 1%N 0%N
    (Swap.mk 2 1 11 12 pending "" "" None None None 604801000 true)
    no_body 2000%Z) as H.
  destruct H as (H1 & H2 & _).
  - vm_compute. reflexivity.
  - reflexivity.
  - vm_compute. discriminate.
  - reflexivity.
  - split; [exact H1 | exact H2].
Defined.

(** C7: for a pending swap whose [expiresAt] lies in the past, an accept
    by the owner is answered with the expired rejection, an
    invalid-transition error; nothing is written: the database, and so the
    stored status [pending] and every book, is unchanged. *)
Theorem accept_expired_rejected (d : Db) (actor id : N) (s : Swap.t)
    (body : AcceptBody) (now : Z) :
  swaps d !! id = Some s ->
  Swap.status s = pending ->
  (Swap.expiresAt s < now)%Z ->
  Swap.owner s = actor ->
  (acceptSwap actor id body now d).1 = SwapExpired
  /\ kind (acceptSwap actor id body now d).1 = Some InvalidTransition
  /\ (acceptSwap actor id body now d).2 = d
  /\ Swap.status <$> swaps (acceptSwap actor id body now d).2 !! id = Some pending.
Proof.
  intros Hs Hst Hexp Hown.
  assert (Hrun : acceptSwap actor id body now d = (SwapExpired, d)).
  { unfold acceptSwap, Swap.isOwner, Swap.isExpired. rewrite Hs, Hst, Hown.
    rewrite !bool_decide_eq_true_2 by done. simpl.
    replace (Swap.expiresAt s <? now)%Z with true
      by (symmetry; apply Z.ltb_lt; lia). done. }
  rewrite Hrun. simpl. rewrite Hs. simpl. by rewrite Hst.
Qed.

Lemma accept_expired_rejected_witness :
  (acceptSwap 1 0 no_body 700000000 db1).1 = SwapExpired
  /\ (acceptSwap 1 0 no_body 700000000 db1).2 = db1.
Proof.
  pose proof (accept_expired_rejected db1 1%N 0%N
    (Swap.mk 2 1 11 12 pending "" "" None None None 604801000 true)
    no_body 700000000%Z) as H.
  destruct H as (H1 & _ & H3 & _).
  - vm_compute. reflexivity.
  - reflexivity.
  - vm_compute. reflexivity.
  - reflexivity.
  - split; [exact H1 | exact H3].
Defined.

(** ** Terminal states *)

(** A request on a swap in a terminal state: see [terminal]. *)
Lemma run_op_on_terminal (d : Db) (op : SwapOp) (actor id : N) (s : Swap.t) (now : Z) :
  swaps d !! id = Some s ->
  terminal (Swap.status s) = true ->
  (run_op op actor id now d).2 = d
  /\ is_success (run_op op actor id now d).1 = false
  /\ kind (run_op op actor id now d).1
     = Some (if allowed_actor op s actor then InvalidTransition else Forbidden).
Proof.
  intros Hs Hterm.
  destruct op as [body|rm| |]; unfold run_op, allowed_actor;
    [unfold acceptSwap | unfold declineSwap | unfold completeSwap | unfold cancelSwap];
    rewrite Hs.
  - destruct (Swap.isOwner s actor); simpl; [|done].
    destruct (Swap.status s); try discriminate; done.
  - destruct (Swap.isOwner s actor); simpl; [|done].
    destruct (Swap.status s); try discriminate; done.
  - destruct (Swap.canModify s actor); simpl; [|done].
    destruct (Swap.status s); try discriminate; done.
  - destruct (Swap.isRequester s actor); simpl; [|done].
    destruct (Swap.status s); try discriminate; done.
Qed.

(** C2, as stated, fails: an accept on a declined swap by someone who is
    not its owner (here the requester) is answered 403, a Forbidden error
    and not a wrong-source-state error; the actor check comes first. *)
Lemma terminal_accept_by_requester_is_forbidden :
  Swap.status <$> swaps db_declined !! 0%N = Some declined
  /\ (acceptSwap 2 0 no_body 2000 db_declined).1 = OnlyOwnerCanAccept
  /\ kind (acceptSwap 2 0 no_body 2000 db_declined).1 <> Some InvalidTransition.
Proof. vm_compute. repeat split; discriminate. Qed.

(** C2, amended: for a swap in a terminal state, every accept, decline,
    complete or cancel request is rejected and writes nothing, so the
    status never changes; the rejection is the wrong-source-state error
    when the actor is the one allowed for that request, and Forbidden
    otherwise. *)
Theorem terminal_swap_is_final (d : Db) (op : SwapOp) (actor id : N) (s : Swap.t)
    (now : Z) :
  swaps d !! id = Some s ->
  terminal (Swap.status s) = true ->
  (run_op op actor id now d).2 = d
  /\ swaps (run_op op actor id now d).2 !! id = Some s
  /\ is_success (run_op op actor id now d).1 = false
  /\ kind (run_op op actor id now d).1
     = Some (if allowed_actor op s actor then InvalidTransition else Forbidden).
Proof.
  intros Hs Hterm.
  destruct (run_op_on_terminal d op actor id s now Hs Hterm) as (Hd & Hrej & Hkind).
  rewrite Hd. done.
Qed.

Lemma terminal_swap_is_final_witness :
  (run_op OpCancel 2 0 2000 db_declined).2 = db_declined
  /\ kind (run_op OpCancel 2 0 2000 db_declined).1 = Some InvalidTransition.
Proof.
  pose proof (terminal_swap_is_final db_declined OpCancel 2%N 0%N
    (Swap.mk 2 1 11 12 declined "" "" None None None 604801000 true) 2000%Z) as H.
  destruct H as (H1 & _ & _ & H4).
  - vm_compute. reflexivity.
  - reflexivity.
  - split; [exact H1 | exact H4].
Defined.

(** ** Completing an accepted swap *)



(** The distinctness that C3 relies on is established by creation: a
    created swap references two different books and two different users. *)
Lemma createSwap_distinct (d : Db) (actor rb ob : N) (msg : string) (now : Z) (id : N) :
  (createSwap actor rb ob msg now d).1 = SwapCreated id ->
  exists s, swaps (createSwap actor rb ob msg now d).2 !! id = Some s
    /\ swaps d !! id = None
    /\ Swap.status s = pending
    /\ Swap.requestedBook s <> Swap.offeredBook s
    /\ Swap.requester s <> Swap.owner s.
Proof.
  unfold createSwap, createSwap_try, Book.canEdit.
  destruct (books d !! rb) as [rbk|] eqn:Hrb; [|discriminate].
  destruct (negb (Book.isActive rbk) || negb (Book.isAvailable rbk)); [discriminate|].
  destruct (books d !! ob) as [obk|] eqn:Hob; [|discriminate].
  destruct (negb (Book.isActive obk) || negb (Book.isAvailable obk)); [discriminate|].
  destruct (Book.owner obk) as [oo|] eqn:Hoo; [|discriminate].
  destruct (bool_decide (oo = actor)) eqn:Ho; [|discriminate].
  destruct (Book.owner rbk) as [ro|] eqn:Hro; [|discriminate].
  destruct (bool_decide (ro = actor)) eqn:Hr; [discriminate|].
  destruct (findOne _ _); [discriminate|].
  cbn [fst snd]. intros [= <-]. eexists. rewrite Swap_save_swaps, lookup_insert_eq.
  split; [reflexivity|]. cbn [Swap.status Swap.requestedBook Swap.offeredBook
                              Swap.requester Swap.owner].
  apply bool_decide_eq_true_1 in Ho. apply bool_decide_eq_false_1 in Hr.
  split; [|split; [done|split]].
  - apply not_elem_of_dom. apply is_fresh.
  - intros ->. congruence.
  - congruence.
Qed.

(** ** Declining a pending swap *)





(** ** Creating a swap *)

(** C6, as stated, fails: swap 0 for the triple (2, 21, 22) is accepted,
    hence live, in [dbA6], where both books are available again (after
    the decline of swap 1 and the cancellation of swap 2); a new request
    for the same triple is answered 201 and a second record is stored. *)
Lemma createSwap_beside_accepted_swap :
  swaps dbA6 !! 0%N
    = Some (Swap.mk 2 1 21 22 accepted "" "" None None None 604801000 true)
  /\ createSwap 2 21 22 "" 5000 dbA6
     = (SwapCreated 3, (createSwap 2 21 22 "" 5000 dbA6).2)
  /\ swaps dbA6 !! 3%N = None
  /\ swaps (createSwap 2 21 22 "" 5000 dbA6).2 !! 3%N
     = Some (Swap.mk 2 1 21 22 pending "" "" None None None 604805000 true).
Proof. repeat split; vm_compute; reflexivity. Qed.

(** A create request writes only when it answers 201. *)
Lemma createSwap_rejected_writes_nothing (d : Db) (actor rb ob : N) (msg : string)
    (now : Z) :
  (forall id, (createSwap actor rb ob msg now d).1 <> SwapCreated id) ->
  (createSwap actor rb ob msg now d).2 = d
  /\ is_success (createSwap actor rb ob msg now d).1 = false.
Proof.
  unfold createSwap, createSwap_try, Book.canEdit.
  destruct (books d !! rb) as [rbk|]; [|done].
  destruct (negb (Book.isActive rbk) || negb (Book.isAvailable rbk)); [done|].
  destruct (books d !! ob) as [obk|]; [|done].
  destruct (negb (Book.isActive obk) || negb (Book.isAvailable obk)); [done|].
  destruct (Book.owner obk) as [oo|]; [|done].
  destruct (bool_decide (oo = actor)); [|done].
  destruct (Book.owner rbk) as [ro|]; [|done].
  destruct (bool_decide (ro = actor)); [done|].
  destruct (findOne _ _); [done|].
  cbn [fst snd]. intros Hno. by destruct (Hno (fresh (dom (swaps d)))).
Qed.

(** C6, amended: when an active pending swap exists for the triple
    (requester, requestedBook, offeredBook), a create request for that
    triple is rejected and no swap record is created; the rejection is
    the duplicate error (Conflict) whenever the request passes the book
    and ownership checks that come first. *)
Theorem createSwap_duplicate_pending (d : Db) (actor rb ob : N) (msg : string)
    (now : Z) (id : N) (s : Swap.t) :
  swaps d !! id = Some s ->
  Swap.requester s = actor ->
  Swap.requestedBook s = rb ->
  Swap.offeredBook s = ob ->
  Swap.status s = pending ->
  Swap.isActive s = true ->
  (createSwap actor rb ob msg now d).2 = d
  /\ is_success (createSwap actor rb ob msg now d).1 = false
  /\ (passes_book_checks actor rb ob d ->
      (createSwap actor rb ob msg now d).1 = AlreadyPendingRequest
      /\ kind (createSwap actor rb ob msg now d).1 = Some Conflict).
Proof.
  intros Hs Hrq Hrb Hob Hst Hact.
  assert (Hfound : is_Some (findOne (fun s0 =>
      bool_decide (Swap.requester s0 = actor)
      && bool_decide (Swap.requestedBook s0 = rb)
      && bool_decide (Swap.offeredBook s0 = ob)
      && bool_decide (Swap.status s0 = pending)
      && Swap.isActive s0) (swaps d))).
  { apply (findOne_found _ _ id s Hs).
    rewrite Hact. by rewrite !bool_decide_eq_true_2 by done. }
  destruct Hfound as [kv Hfound].
  split_and!.
  - apply createSwap_rejected_writes_nothing. intros id'.
    unfold createSwap, createSwap_try, Book.canEdit. rewrite Hfound.
    repeat case_match; simplify_eq; done.
  - apply createSwap_rejected_writes_nothing. intros id'.
    unfold createSwap, createSwap_try, Book.canEdit. rewrite Hfound.
    repeat case_match; simplify_eq; done.
  - intros (rbk & obk & o & Hrbk & Hobk & Ha1 & Ha2 & Ha3 & Ha4 & Hoo & Hro & Hne).
    unfold createSwap, createSwap_try, Book.canEdit.
    rewrite Hrbk, Hobk, Ha1, Ha2, Ha3, Ha4, Hoo, Hro, Hfound. simpl.
    rewrite bool_decide_eq_true_2 by done.
    rewrite bool_decide_eq_false_2 by done. done.
Qed.

Lemma createSwap_duplicate_pending_witness :
  (createSwap 2 11 12 "again" 5000 db1).2 = db1
  /\ (createSwap 2 11 12 "again" 5000 db1).1 = AlreadyPendingRequest.
Proof.
  pose proof (createSwap_duplicate_pending db1 2%N 11%N 12%N "again" 5000%Z 0%N
    (Swap.mk 2 1 11 12 pending "" "" None None None 604801000 true)) as H.
  destruct H as (H1 & _ & H3).
  - vm_compute. reflexivity.
  - reflexivity.
  - reflexivity.
  - reflexivity.
  - reflexivity.
  - reflexivity.
  - split; [exact H1|]. apply H3.
    exists (book_of (Some 1%N)), (book_of (Some 2%N)), 1%N.
    repeat split; try reflexivity. discriminate.
Defined.

(** C9, as stated, fails: user 2 asks for the anonymous book 31 offering
    book 33, which belongs to user 3; the ownership check of the offered
    book answers 403 before the owner of the requested book is looked at,
    so the request ends in the defined Forbidden error, not in the
    server-error path. *)
Lemma createSwap_anonymous_requested_book_forbidden :
  Book.owner <$> books db_anon !! 31%N = Some None
  /\ createSwap 2 31 33 "" 1000 db_anon = (OfferOnlyOwnBooks, db_anon)
  /\ kind (createSwap 2 31 33 "" 1000 db_anon).1 = Some Forbidden
  /\ (createSwap 2 31 33 "" 1000 db_anon).1 <> ServerError.
Proof. repeat split; try (vm_compute; reflexivity). vm_compute. discriminate. Qed.

(** C9, amended: when both books of a create request exist and are active
    and available, and the offered book has a null owner, or the
    requester owns the offered book and the requested book has a null
    owner, the ownership check calls [toString] on the null owner, and
    the request ends in the server-error path: the reply is the generic
    500, none of the defined errors, and nothing is written. *)
Theorem createSwap_null_owner (d : Db) (actor rb ob : N) (msg : string) (now : Z)
    (rbk obk : Book.t) :
  books d !! rb = Some rbk ->
  books d !! ob = Some obk ->
  Book.isActive rbk = true -> Book.isAvailable rbk = true ->
  Book.isActive obk = true -> Book.isAvailable obk = true ->
  Book.owner obk = None \/ (Book.owner obk = Some actor /\ Book.owner rbk = None) ->
  (Book.canEdit obk actor = Throw TypeError
   \/ Book.canEdit rbk actor = Throw TypeError)
  /\ createSwap actor rb ob msg now d = (ServerError, d)
  /\ http_status (createSwap actor rb ob msg now d).1 = 500%Z
  /\ kind (createSwap actor rb ob msg now d).1 = None.
Proof.
  intros Hrbk Hobk Ha1 Ha2 Ha3 Ha4 Hnull.
  assert (Hrun : createSwap actor rb ob msg now d = (ServerError, d)).
  { unfold createSwap, createSwap_try, Book.canEdit.
    rewrite Hrbk, Hobk, Ha1, Ha2, Ha3, Ha4. simpl.
    destruct Hnull as [->|[-> ->]]; [done|].
    by rewrite bool_decide_eq_true_2 by done. }
  rewrite Hrun. split; [|done].
  unfold Book.canEdit. destruct Hnull as [->|[_ ->]]; [by left|by right].
Qed.

Lemma createSwap_null_owner_witness :
  createSwap 2 31 32 "" 1000 db_anon = (ServerError, db_anon).
Proof.
  pose proof (createSwap_null_owner db_anon 2%N 31%N 32%N "" 1000%Z
    (book_of None) (book_of (Some 2%N))) as H.
  destruct H as (_ & H2 & _).
  - reflexivity.
  - reflexivity.
  - reflexivity.
  - reflexivity.
  - reflexivity.
  - reflexivity.
  - right. split; reflexivity.
  - exact H2.
Defined.

(** ** Rating recomputation *)

Lemma filter_fmap_comm {A B : Type} (f : A -> B) (P : B -> Prop)
    `{!forall x, Decision (P x)} (l : list A) :
  filter P (f <$> l) = f <$> filter (fun a => P (f a)) l.
Proof.
  induction l as [|a l IH]; [done|].
  rewrite fmap_cons, !filter_cons. case_decide; by rewrite IH.
Qed.

Lemma sum_ratings_Permutation (l k : list Review.t) :
  l ≡ₚ k -> sum_ratings l = sum_ratings k.
Proof.
  induction 1 as [|x l k _ IH|x y l|l k m _ IH1 _ IH2]; simpl; lia.
Qed.

Lemma sum_ratings_fmap (l : list Review.t) :
  sum_ratings l = foldr Z.add 0%Z (Review.rating <$> l).
Proof. induction l as [|v l IH]; [done|]. simpl. by rewrite IH. Qed.

(** The matched documents are the active reviews of the user, in some order. *)
Lemma match_stage_Permutation (d : Db) (u : N) (l : list (N * Review.t)) :
  NoDup l ->
  (forall id v, (id, v) ∈ l
     <-> reviews d !! id = Some v /\ Review.reviewee v = u /\ Review.isActive v = true) ->
  match_stage u d ≡ₚ l.*2.
Proof.
  intros Hnd Hl. unfold match_stage. rewrite filter_fmap_comm.
  apply fmap_Permutation, NoDup_Permutation; [|exact Hnd|].
  - apply NoDup_filter, NoDup_map_to_list.
  - intros [id v]. rewrite list_elem_of_filter, elem_of_map_to_list, Hl. simpl. tauto.
Qed.

(** Constant divisors as fractions, the form [lra] understands. *)
Ltac qconst :=
  unfold Qdiv in *;
  change (/ 2)%Q with (1 # 2)%Q in *;
  change (/ 10)%Q with (1 # 10)%Q in *;
  change (/ 20)%Q with (1 # 20)%Q in *;
  change (/ inject_Z 10)%Q with (1 # 10)%Q in *;
  change (inject_Z 10) with 10%Q in *;
  change (inject_Z 1) with 1%Q in *.

Lemma Math_round_nearest (x : Q) :
  (inject_Z (Math_round x) - 1 / 2 <= x /\ x < inject_Z (Math_round x) + 1 / 2)%Q.
Proof.
  unfold Math_round.
  pose proof (Qfloor_le (x + (1 # 2))) as Hle.
  pose proof (Qlt_floor (x + (1 # 2))) as Hlt.
  rewrite inject_Z_plus in Hlt. qconst.
  split; lra.
Qed.

Lemma round_to_tenths (x : Q) :
  rounded_to_one_decimal x (inject_Z (Math_round (x * inject_Z 10)) / inject_Z 10)%Q.
Proof.
  exists (Math_round (x * inject_Z 10)).
  destruct (Math_round_nearest (x * inject_Z 10)) as [Hlo Hhi].
  split; [reflexivity|]. qconst. split; lra.
Qed.

(** For a user with active reviews [l] (each listed once),
    [calculateUserRating] returns the count of [l] together with, when
    [l] is not empty, the mean of its ratings rounded to one decimal, and
    0 and 0 when [l] is empty. *)
Theorem calculateUserRating_value (d : Db) (u : N) (l : list (N * Review.t)) :
  NoDup l ->
  (forall id v, (id, v) ∈ l
     <-> reviews d !! id = Some v /\ Review.reviewee v = u /\ Review.isActive v = true) ->
  totalReviews (calculateUserRating u d) = Z.of_nat (length l)
  /\ (l = [] -> averageRating (calculateUserRating u d) = 0%Q)
  /\ (l <> [] ->
      rounded_to_one_decimal (mean (Review.rating <$> l.*2))
        (averageRating (calculateUserRating u d))).
Proof.
  intros Hnd Hl.
  pose proof (match_stage_Permutation d u l Hnd Hl) as Hperm.
  assert (Hlen : length (match_stage u d) = length l).
  { rewrite (Permutation_length Hperm). by rewrite length_fmap. }
  assert (Hsum : sum_ratings (match_stage u d)
                 = foldr Z.add 0%Z (Review.rating <$> l.*2)).
  { rewrite (sum_ratings_Permutation _ _ Hperm). apply sum_ratings_fmap. }
  unfold calculateUserRating, group_stage.
  destruct (match_stage u d) as [|v0 ms] eqn:Hms.
  - destruct l as [|p l]; [|discriminate]. repeat split; done.
  - destruct l as [|p l]; [discriminate|]. cbn [totalReviews averageRating].
    split; [by rewrite Hlen|]. split; [done|].
    intros _. unfold mean. rewrite <- Hsum, length_fmap, length_fmap, <- Hlen.
    apply round_to_tenths.
Qed.

Lemma calculateUserRating_value_witness :
  totalReviews (calculateUserRating 1 db4) = 1%Z
  /\ rounded_to_one_decimal (mean [4%Z]) (averageRating (calculateUserRating 1 db4)).
Proof.
  assert (Hrev : reviews db4 = {[ 0%N := Review.mk 2 1 0 4 "" true ]})
    by (vm_compute; reflexivity).
  pose proof (calculateUserRating_value db4 1%N [(0%N, Review.mk 2 1 0 4 "" true)]) as H.
  destruct H as (H1 & _ & H3).
  - apply NoDup_singleton.
  - intros id v. rewrite Hrev, list_elem_of_singleton, lookup_singleton_Some.
    split.
    + intros [= -> ->]. repeat split; reflexivity.
    + intros ([<- <-] & _ & _). reflexivity.
  - split; [exact H1|]. apply H3. discriminate.
Defined.

(** ** The stored rating *)

Lemma Review_save_reviews id orig v d :
  reviews (Review_save id orig v d) = <[id := v]> (reviews d).
Proof. by rewrite Review_save_writes_review. Qed.

Lemma Review_save_swaps id orig v d :
  swaps (Review_save id orig v d) = swaps d.
Proof. by rewrite Review_save_writes_review. Qed.

Lemma Review_save_users id orig v d :
  users (Review_save id orig v d) = users d.
Proof. by rewrite Review_save_writes_review. Qed.

(** No request of the review router writes a user record: every one of
    them goes through [save], whose post-save hook never passes its
    guard. *)
Lemma createReview_users_unchanged (actor swapId revieweeId : N) (rating : Z)
    (comment : string) (d : Db) :
  users (createReview actor swapId revieweeId rating comment d).2 = users d.
Proof.
  unfold createReview. repeat case_match; try done.
  all: cbn [snd]; by rewrite Review_save_users.
Qed.

Lemma updateReview_users_unchanged (actor id : N) (rating : option Z)
    (comment : option string) (d : Db) :
  users (updateReview actor id rating comment d).2 = users d.
Proof.
  unfold updateReview.
  destruct (reviews d !! id) as [review|]; [|done].
  destruct (negb (Review.isActive review)); [done|].
  destruct (negb (Review.canEdit review actor)); [done|].
  cbn [snd]. by rewrite Review_save_users.
Qed.

Lemma deleteReview_users_unchanged (actor : N) (actorRole : Role) (id : N) (d : Db) :
  users (deleteReview actor actorRole id d).2 = users d.
Proof.
  unfold deleteReview.
  destruct (reviews d !! id) as [review|]; [|done].
  destruct (negb (Review.isActive review)); [done|].
  destruct (negb (Review.canEdit review actor) && negb (bool_decide (actorRole = admin)));
    [done|].
  cbn [snd]. by rewrite Review_save_users.
Qed.

(** The aggregate reads the reviews only. *)
Lemma calculateUserRating_reviews (d1 d2 : Db) (u : N) :
  reviews d1 = reviews d2 -> calculateUserRating u d1 = calculateUserRating u d2.
Proof. intros H. unfold calculateUserRating, match_stage. by rewrite H. Qed.

(** C1 fails, already on create.  In the first scenario user 1 is stored
    with rating 0 and count 0 when swap 0 is completed ([db3]).  User 2
    then reviews user 1 with rating 4: the create answers 201 and the
    review is the one active review of user 1, so the aggregate is 4.0
    and 1; but the stored rating and count of user 1 still read 0 and 0
    ([db4]): they do not equal the aggregate. *)
Theorem review_create_leaves_stale_rating :
  users db3 !! 1%N = Some (User.mk user 0 0 1)
  /\ (createReview 2 0 1 4 "" db3).1 = ReviewCreated 0
  /\ match_stage 1 db4 = [Review.mk 2 1 0 4 "" true]
  /\ calculateUserRating 1 db4 = mkRatingData (40 # 10) 1
  /\ users db4 !! 1%N = Some (User.mk user 0 0 1)
  /\ ~ rating_synced 1 db4.
Proof.
  repeat split; try (vm_compute; reflexivity).
  intros Hsync.
  destruct (Hsync (User.mk user 0 0 1)) as [H _]; [vm_compute; reflexivity|].
  vm_compute in H. discriminate.
Qed.

(** C8 fails in its last part.  At the create of the first scenario the
    recomputation function returns 4.0 and 1 for user 1, as the claim
    says, but these values are not written back: the post-save hook of
    the saved review does not pass its guard, the save leaves every user
    record as it was, and user 1 keeps rating 0 and count 0. *)
Theorem recomputed_rating_is_not_written_back :
  calculateUserRating 1 (with_reviews (insert 0%N (Review.mk 2 1 0 4 "" true)) db3)
  = mkRatingData (40 # 10) 1
  /\ Review_isModified_rating (Some (Review.mk 2 1 0 4 "" true))
                              (Review.mk 2 1 0 4 "" true)
     || Review_isNew (Some (Review.mk 2 1 0 4 "" true)) = false
  /\ users (Review_save 0 None (Review.mk 2 1 0 4 "" true) db3) = users db3
  /\ User.rating <$> users db4 !! 1%N = Some 0%Q
  /\ User.totalRatings <$> users db4 !! 1%N = Some 0%Z.
Proof. repeat split; vm_compute; reflexivity. Qed.

(** ** Reviews are never replaced *)

(** A transition request writes at most the swap it names, and no review. *)
Lemma run_op_frame (d : Db) (op : SwapOp) (actor id : N) (now : Z) :
  reviews (run_op op actor id now d).2 = reviews d
  /\ forall i, i <> id -> swaps (run_op op actor id now d).2 !! i = swaps d !! i.
Proof.
  destruct op as [body|rm| |]; unfold run_op;
    [unfold acceptSwap | unfold declineSwap | unfold completeSwap | unfold cancelSwap];
    destruct (swaps d !! id) as [s|]; try done.
  - destruct (negb (Swap.isOwner s actor)); [done|].
    destruct (negb (bool_decide (Swap.status s = pending))); [done|].
    destruct (Swap.isExpired s now); [done|]. cbn [snd].
    destruct (Swap_accept_doc id s (body_responseMessage body)
      (mkMeeting (truthy (body_meetingLocation body)) (body_meetingDate body)) d)
      as (s' & -> & _).
    rewrite Swap_save_reviews, Swap_save_swaps. split; [done|].
    intros i Hi. by rewrite lookup_insert_ne.
  - destruct (negb (Swap.isOwner s actor)); [done|].
    destruct (negb (bool_decide (Swap.status s = pending))); [done|]. cbn [snd].
    unfold Swap_decline. rewrite Swap_save_reviews, Swap_save_swaps. split; [done|].
    intros i Hi. by rewrite lookup_insert_ne.
  - destruct (negb (Swap.canModify s actor)); [done|].
    destruct (negb (bool_decide (Swap.status s = accepted))); [done|]. cbn [snd].
    unfold Swap_complete. rewrite Swap_save_reviews, Swap_save_swaps. split; [done|].
    intros i Hi. by rewrite lookup_insert_ne.
  - destruct (negb (Swap.isRequester s actor)); [done|].
    destruct (negb _); [done|]. cbn [snd].
    unfold Swap_cancel. rewrite Swap_save_reviews, Swap_save_swaps. split; [done|].
    intros i Hi. by rewrite lookup_insert_ne.
Qed.

(** A create request keeps every stored swap and writes no review. *)
Lemma createSwap_frame (d : Db) (actor rb ob : N) (msg : string) (now : Z) :
  reviews (createSwap actor rb ob msg now d).2 = reviews d
  /\ forall i s, swaps d !! i = Some s ->
       swaps (createSwap actor rb ob msg now d).2 !! i = Some s.
Proof.
  unfold createSwap, createSwap_try, Book.canEdit.
  destruct (books d !! rb) as [rbk|]; [|done].
  destruct (negb (Book.isActive rbk) || negb (Book.isAvailable rbk)); [done|].
  destruct (books d !! ob) as [obk|]; [|done].
  destruct (negb (Book.isActive obk) || negb (Book.isAvailable obk)); [done|].
  destruct (Book.owner obk) as [oo|]; [|done].
  destruct (bool_decide (oo = actor)); [|done].
  destruct (Book.owner rbk) as [ro|]; [|done].
  destruct (bool_decide (ro = actor)); [done|].
  destruct (findOne _ _); [done|].
  cbn [snd]. rewrite Swap_save_reviews, Swap_save_swaps. split; [done|].
  intros i s Hi. rewrite lookup_insert_ne; [done|].
  intros <-. pose proof (is_fresh (dom (swaps d))) as Hfresh.
  apply not_elem_of_dom in Hfresh. congruence.
Qed.

(** Every request keeps the swaps that are in a terminal state. *)
Lemma step_keeps_terminal_swap (d d' : Db) (i : N) (s : Swap.t) :
  step d d' ->
  swaps d !! i = Some s -> terminal (Swap.status s) = true ->
  swaps d' !! i = Some s.
Proof.
  intros Hstep Hs Hterm.
  destruct Hstep as [actor rb ob msg now d|op actor id now d
    |actor swapId revieweeId rating comment d|actor id rating comment d
    |actor actorRole id d|d d' Hsw Hrv].
  - by apply createSwap_frame.
  - destruct (decide (i = id)) as [->|Hne].
    + destruct (run_op_on_terminal d op actor id s now Hs Hterm) as (-> & _). done.
    + destruct (run_op_frame d op actor id now) as [_ Hother]. by rewrite Hother.
  - unfold createReview. repeat case_match; try done;
      cbn [snd]; by rewrite Review_save_swaps.
  - unfold updateReview. repeat case_match; try done;
      cbn [snd]; by rewrite Review_save_swaps.
  - unfold deleteReview. repeat case_match; try done;
      cbn [snd]; by rewrite Review_save_swaps.
  - by rewrite Hsw.
Qed.

Lemma review_ok_same_triple (d : Db) (v w : Review.t) :
  same_triple v w -> review_ok d v -> review_ok d w.
Proof.
  intros (Hr & He & Hs) (s & Hsw & Hst & Hparties).
  exists s. rewrite <- Hr, <- He, <- Hs. done.
Qed.

Lemma review_ok_step (d d' : Db) (v : Review.t) :
  step d d' -> review_ok d v -> review_ok d' v.
Proof.
  intros Hstep (s & Hsw & Hst & Hparties). exists s.
  split; [|done].
  apply (step_keeps_terminal_swap d d' _ s Hstep Hsw). by rewrite Hst.
Qed.

(** A stored review keeps its id and its triple through every request. *)
Lemma step_keeps_review (d d' : Db) (id : N) (v : Review.t) :
  step d d' ->
  reviews d !! id = Some v ->
  exists v', reviews d' !! id = Some v' /\ same_triple v v'.
Proof.
  intros Hstep Hv.
  destruct Hstep as [actor rb ob msg now d|op actor i now d
    |actor swapId revieweeId rating comment d|actor i rating comment d
    |actor actorRole i d|d d' Hsw Hrv].
  - exists v. destruct (createSwap_frame d actor rb ob msg now) as [-> _]. done.
  - exists v. destruct (run_op_frame d op actor i now) as [-> _]. done.
  - unfold createReview. repeat case_match; try (by exists v).
    cbn [snd]. rewrite Review_save_reviews. exists v. split; [|done].
    rewrite lookup_insert_ne; [done|]. intros <-.
    pose proof (is_fresh (dom (reviews d))) as Hfresh.
    apply not_elem_of_dom in Hfresh. congruence.
  - unfold updateReview.
    destruct (reviews d !! i) as [w|] eqn:Hw; [|by exists v].
    destruct (negb (Review.isActive w)); [by exists v|].
    destruct (negb (Review.canEdit w actor)); [by exists v|].
    cbn [snd]. rewrite Review_save_reviews.
    destruct (decide (i = id)) as [->|Hne].
    + rewrite lookup_insert_eq. eexists. split; [reflexivity|].
      assert (w = v) as -> by congruence.
      by destruct rating, comment.
    + rewrite lookup_insert_ne by done. by exists v.
  - unfold deleteReview.
    destruct (reviews d !! i) as [w|] eqn:Hw; [|by exists v].
    destruct (negb (Review.isActive w)); [by exists v|].
    destruct (negb (Review.canEdit w actor) && negb (bool_decide (actorRole = admin)));
      [by exists v|].
    cbn [snd]. rewrite Review_save_reviews.
    destruct (decide (i = id)) as [->|Hne].
    + rewrite lookup_insert_eq. eexists. split; [reflexivity|].
      assert (w = v) as -> by congruence. done.
    + rewrite lookup_insert_ne by done. by exists v.
  - exists v. by rewrite Hrv.
Qed.

(** A review stored after a request was stored before it with the same
    triple, or was created by the request for a completed swap of its
    two parties. *)
Lemma step_review_origin (d d' : Db) (id : N) (v' : Review.t) :
  step d d' ->
  reviews d' !! id = Some v' ->
  (exists v, reviews d !! id = Some v /\ same_triple v v') \/ review_ok d v'.
Proof.
  intros Hstep Hv'.
  destruct Hstep as [actor rb ob msg now d|op actor i now d
    |actor swapId revieweeId rating comment d|actor i rating comment d
    |actor actorRole i d|d d' Hsw Hrv].
  - left. exists v'. destruct (createSwap_frame d actor rb ob msg now) as [Hr _].
    by rewrite <- Hr.
  - left. exists v'. destruct (run_op_frame d op actor i now) as [Hr _].
    by rewrite <- Hr.
  - revert Hv'. unfold createReview.
    destruct (swaps d !! swapId) as [s|] eqn:Hs; [|by left; exists v'].
    destruct (bool_decide (Swap.status s = completed)) eqn:Hst;
      [|by left; exists v']. cbn [negb].
    destruct (Swap.canModify s actor); [|by left; exists v']. cbn [negb].
    destruct (_ || _) eqn:Hvalid; [|by left; exists v']. cbn [negb].
    destruct (findOne _ _); [by left; exists v'|].
    cbn [snd]. rewrite Review_save_reviews.
    destruct (decide (fresh (dom (reviews d)) = id)) as [->|Hne].
    + rewrite lookup_insert_eq. intros [= <-]. right. exists s.
      apply bool_decide_eq_true_1 in Hst.
      split; [done|]. split; [done|]. cbn [Review.reviewee Review.reviewer].
      apply orb_true_iff in Hvalid as [H|H];
        apply andb_true_iff in H as [H1 H2];
        apply bool_decide_eq_true_1 in H1; apply bool_decide_eq_true_1 in H2;
        [by left | by right].
    + rewrite lookup_insert_ne by done. intros Hv'. left. by exists v'.
  - revert Hv'. unfold updateReview.
    destruct (reviews d !! i) as [w|] eqn:Hw; [|by left; exists v'].
    destruct (negb (Review.isActive w)); [by left; exists v'|].
    destruct (negb (Review.canEdit w actor)); [by left; exists v'|].
    cbn [snd]. rewrite Review_save_reviews.
    destruct (decide (i = id)) as [->|Hne].
    + rewrite lookup_insert_eq. intros [= <-]. left. exists w. split; [done|].
      by destruct rating, comment.
    + rewrite lookup_insert_ne by done. intros Hv'. left. by exists v'.
  - revert Hv'. unfold deleteReview.
    destruct (reviews d !! i) as [w|] eqn:Hw; [|by left; exists v'].
    destruct (negb (Review.isActive w)); [by left; exists v'|].
    destruct (negb (Review.canEdit w actor) && negb (bool_decide (actorRole = admin)));
      [by left; exists v'|].
    cbn [snd]. rewrite Review_save_reviews.
    destruct (decide (i = id)) as [->|Hne].
    + rewrite lookup_insert_eq. intros [= <-]. left. by exists w.
    + rewrite lookup_insert_ne by done. intros Hv'. left. by exists v'.
  - left. exists v'. by rewrite <- Hrv.
Qed.

(** The invariant holds when there is no review and is kept by every request. *)
Lemma reviews_ok_empty (d : Db) : reviews d = ∅ -> reviews_ok d.
Proof. intros He id v. by rewrite He, lookup_empty. Qed.

Lemma reviews_ok_step (d d' : Db) : step d d' -> reviews_ok d -> reviews_ok d'.
Proof.
  intros Hstep Hok id v' Hv'.
  apply (review_ok_step d d' v' Hstep).
  destruct (step_review_origin d d' id v' Hstep Hv') as [(v & Hv & Htr)|Hnew]; [|done].
  apply (review_ok_same_triple d v v' Htr), (Hok id v Hv).
Qed.

Lemma reviews_ok_reachable (d d' : Db) : rtc step d d' -> reviews_ok d -> reviews_ok d'.
Proof. induction 1 as [|d1 d2 d3 Hstep _ IH]; [done|]. intros Hok. eauto using reviews_ok_step. Qed.

Lemma review_kept_reachable (d d' : Db) (id : N) (v : Review.t) :
  rtc step d d' ->
  reviews d !! id = Some v ->
  exists v', reviews d' !! id = Some v' /\ same_triple v v'.
Proof.
  intros Hsteps. revert v.
  induction Hsteps as [d|d1 d2 d3 Hstep _ IH]; intros v Hv.
  - by exists v.
  - destruct (step_keeps_review d1 d2 id v Hstep Hv) as (v2 & Hv2 & (H1 & H2 & H3)).
    destruct (IH v2 Hv2) as (v3 & Hv3 & (H4 & H5 & H6)).
    exists v3. split; [done|]. unfold same_triple. by rewrite H1, H2, H3.
Qed.

(** C10: once a review record exists for a (reviewer, reviewee, swap)
    triple, whether active or soft-deleted, a create request of that
    reviewer for that swap and reviewee is answered with the duplicate
    error (Conflict) and writes nothing, in the state where the record
    exists and in every state reached from it by later requests; so a
    reviewer who soft-deleted a review can never replace it.  The
    invariant [reviews_ok] holds in every state reached from one without
    reviews ([reviews_ok_empty], [reviews_ok_reachable]). *)
Theorem createReview_existing_triple (d d' : Db) (id : N) (v : Review.t)
    (rating : Z) (comment : string) :
  reviews_ok d ->
  reviews d !! id = Some v ->
  rtc step d d' ->
  createReview (Review.reviewer v) (Review.swap v) (Review.reviewee v) rating comment d'
  = (AlreadyReviewed, d')
  /\ kind AlreadyReviewed = Some Conflict.
Proof.
  intros Hok Hv Hsteps. split; [|done].
  destruct (review_kept_reachable d d' id v Hsteps Hv) as (v' & Hv' & (H1 & H2 & H3)).
  pose proof (reviews_ok_reachable d d' Hsteps Hok id v' Hv') as (s & Hs & Hst & Hparties).
  rewrite <- H3 in Hs. rewrite <- H1, <- H2 in Hparties.
  unfold createReview, Swap.canModify. rewrite Hs, Hst.
  rewrite (bool_decide_eq_true_2 (completed = completed)) by done. cbn [negb].
  assert (Hfound : is_Some (findOne (fun w =>
      bool_decide (Review.reviewer w = Review.reviewer v)
      && bool_decide (Review.reviewee w = Review.reviewee v)
      && bool_decide (Review.swap w = Review.swap v)) (reviews d'))).
  { apply (findOne_found _ _ id v' Hv').
    by rewrite !bool_decide_eq_true_2 by done. }
  destruct Hfound as [kv ->].
  destruct Hparties as [[Ha Hb]|[Ha Hb]]; rewrite Ha, Hb;
    rewrite !(bool_decide_eq_true_2 (Review.reviewer v = Review.reviewer v)) by done;
    rewrite !(bool_decide_eq_true_2 (Review.reviewee v = Review.reviewee v)) by done;
    destruct (bool_decide (Review.reviewee v = Review.reviewer v));
    try destruct (bool_decide (Review.reviewer v = Review.reviewee v));
    reflexivity.
Qed.

Lemma createReview_existing_triple_witness :
  Review.isActive <$> reviews db5 !! 0%N = Some false
  /\ createReview 2 0 1 5 "again" db5 = (AlreadyReviewed, db5).
Proof.
  split; [vm_compute; reflexivity|].
  pose proof (createReview_existing_triple db5 db5 0%N
    (Review.mk 2 1 0 4 "" false) 5%Z "again") as H.
  destruct H as [H _].
  - apply (reviews_ok_reachable db3 db5).
    + eapply rtc_l; [apply (step_createReview 2 0 1 4 "" db3)|].
      apply rtc_once. apply (step_deleteReview 2 user 0 db4).
    + apply reviews_ok_empty. reflexivity.
  - vm_compute. reflexivity.
  - apply rtc_refl.
  - exact H.
Defined.

(** * Further properties of the swap router *)

(** ** Creating a swap: the success path *)

(** When both books exist and are active and available, the requester
    owns the offered book and not the requested one, and no active
    pending swap exists for the triple, the request is answered 201 with
    an unused id; exactly one record is stored under it: pending, active,
    requester the actor, owner the owner of the requested book, expiring
    seven days after the request, empty response, no meeting and no
    completion date; books, users and reviews are left as they were. *)
Theorem createSwap_success (d : Db) (actor rb ob o : N) (msg : string) (now : Z)
    (rbk obk : Book.t) :
  books d !! rb = Some rbk ->
  books d !! ob = Some obk ->
  Book.isActive rbk = true -> Book.isAvailable rbk = true ->
  Book.isActive obk = true -> Book.isAvailable obk = true ->
  Book.owner obk = Some actor ->
  Book.owner rbk = Some o -> o <> actor ->
  (forall i s, swaps d !! i = Some s ->
     ~ (Swap.requester s = actor /\ Swap.requestedBook s = rb
        /\ Swap.offeredBook s = ob /\ Swap.status s = pending
        /\ Swap.isActive s = true)) ->
  exists id,
    (createSwap actor rb ob msg now d).1 = SwapCreated id
    /\ swaps d !! id = None
    /\ swaps (createSwap actor rb ob msg now d).2
       = <[id := Swap.mk actor o rb ob pending msg "" None None None
                   (now + 604800000)%Z true]> (swaps d)
    /\ books (createSwap actor rb ob msg now d).2 = books d
    /\ users (createSwap actor rb ob msg now d).2 = users d
    /\ reviews (createSwap actor rb ob msg now d).2 = reviews d.
Proof.
  intros Hrbk Hobk Ha1 Ha2 Ha3 Ha4 Hoo Hro Hne Hnodup.
  assert (Hnone : findOne (fun s0 =>
      bool_decide (Swap.requester s0 = actor)
      && bool_decide (Swap.requestedBook s0 = rb)
      && bool_decide (Swap.offeredBook s0 = ob)
      && bool_decide (Swap.status s0 = pending)
      && Swap.isActive s0) (swaps d) = None).
  { apply findOne_None. intros i s Hs.
    destruct (_ && _) eqn:Hq; [|done]. exfalso. apply (Hnodup i s Hs).
    repeat (apply andb_true_iff in Hq as [Hq ?]).
    repeat match goal with
           | H : bool_decide _ = true |- _ => apply bool_decide_eq_true_1 in H
           end. done. }
  exists (fresh (dom (swaps d))).
  unfold createSwap, createSwap_try, Book.canEdit.
  rewrite Hrbk, Hobk, Ha1, Ha2, Ha3, Ha4, Hoo, Hro, Hnone. cbn [negb orb].
  rewrite bool_decide_eq_true_2 by done.
  rewrite bool_decide_eq_false_2 by done. cbn [fst snd].
  split; [done|]. split.
  { apply not_elem_of_dom, is_fresh. }
  rewrite Swap_save_swaps, Swap_save_reviews.
  split; [done|]. done.
Qed.

Lemma createSwap_success_witness :
  exists id, (createSwap 2 11 12 "hi" 1000 db0).1 = SwapCreated id
    /\ swaps db0 !! id = None.
Proof.
  destruct (createSwap_success db0 2%N 11%N 12%N 1%N "hi" 1000%Z
    (book_of (Some 1%N)) (book_of (Some 2%N))) as (id & H1 & H2 & _).
  - reflexivity.
  - reflexivity.
  - reflexivity.
  - reflexivity.
  - reflexivity.
  - reflexivity.
  - reflexivity.
  - reflexivity.
  - discriminate.
  - intros i s Hs. vm_compute in Hs. discriminate.
  - exists id. split; [exact H1 | exact H2].
Defined.

(** A swap that was created references two different books and two
    different users, and starts pending. *)
Lemma createSwap_distinct_witness :
  exists s, swaps (createSwap 2 11 12 "" 1000 db0).2 !! 0%N = Some s
    /\ Swap.requestedBook s <> Swap.offeredBook s
    /\ Swap.requester s <> Swap.owner s.
Proof.
  destruct (createSwap_distinct db0 2%N 11%N 12%N "" 1000%Z 0%N)
    as (s & H1 & _ & _ & H4 & H5).
  - vm_compute. reflexivity.
  - exists s. split; [exact H1|]. split; [exact H4 | exact H5].
Defined.

(** ** Requests that are not served write nothing *)

Lemma run_op_rejected_writes_nothing (d : Db) (op : SwapOp) (actor id : N) (now : Z) :
  is_success (run_op op actor id now d).1 = false ->
  (run_op op actor id now d).2 = d.
Proof.
  destruct op as [body|rm| |]; unfold run_op;
    [unfold acceptSwap | unfold declineSwap | unfold completeSwap | unfold cancelSwap];
    repeat case_match; try done; cbn [fst]; discriminate.
Qed.

(** Whatever the request of the swap and review routers, when the reply
    is not a success (any 4xx or the 500), the database is exactly as it
    was before the request. *)
Theorem rejected_request_writes_nothing (req : Request) (now : Z) (d : Db) :
  is_success (handle req now d).1 = false ->
  (handle req now d).2 = d.
Proof.
  destruct req as [actor rb ob msg|op actor id|actor swapId revieweeId rating comment
                  |actor id rating comment|actor actorRole id]; unfold handle.
  - intros Hrej. apply createSwap_rejected_writes_nothing.
    intros id Hid. rewrite Hid in Hrej. discriminate.
  - apply run_op_rejected_writes_nothing.
  - unfold createReview. repeat case_match; try done; cbn [fst]; discriminate.
  - unfold updateReview. repeat case_match; try done; cbn [fst]; discriminate.
  - unfold deleteReview. repeat case_match; try done; cbn [fst]; discriminate.
Qed.

Lemma rejected_request_writes_nothing_witness :
  (handle (ReqCreateSwap 2 11 12 "again") 5000 db1).2 = db1.
Proof.
  apply (rejected_request_writes_nothing (ReqCreateSwap 2 11 12 "again") 5000%Z db1).
  vm_compute. reflexivity.
Defined.

(** ** Who may move a swap, and between which states *)

(** A transition request by an actor the handler does not allow is
    answered 403, whatever the state of the swap, and writes nothing. *)
Theorem swap_op_by_wrong_actor (d : Db) (op : SwapOp) (actor id : N) (s : Swap.t)
    (now : Z) :
  swaps d !! id = Some s ->
  allowed_actor op s actor = false ->
  kind (run_op op actor id now d).1 = Some Forbidden
  /\ http_status (run_op op actor id now d).1 = 403%Z
  /\ (run_op op actor id now d).2 = d.
Proof.
  intros Hs Hact.
  destruct op as [body|rm| |]; unfold run_op, allowed_actor in *;
    [unfold acceptSwap | unfold declineSwap | unfold completeSwap | unfold cancelSwap];
    rewrite Hs, Hact; done.
Qed.

Lemma swap_op_by_wrong_actor_witness :
  kind (run_op OpComplete 3 0 3000 db2).1 = Some Forbidden
  /\ (run_op OpComplete 3 0 3000 db2).2 = db2.
Proof.
  destruct (swap_op_by_wrong_actor db2 OpComplete 3%N 0%N
    (Swap.mk 2 1 11 12 accepted "" "" None None None 604801000 true) 3000%Z)
    as (H1 & _ & H3).
  - vm_compute. reflexivity.
  - vm_compute. reflexivity.
  - split; [exact H1 | exact H3].
Defined.

(** A transition request succeeds exactly when the swap exists, the
    actor is the one the handler allows, the swap is in a source state of
    the transition and, for an accept, [expiresAt] is not before the time
    of the request. *)
Theorem swap_op_success_iff (d : Db) (op : SwapOp) (actor id : N) (now : Z) :
  is_success (run_op op actor id now d).1 = true
  <-> exists s, swaps d !! id = Some s
        /\ allowed_actor op s actor = true
        /\ source_ok op (Swap.status s) = true
        /\ (forall body, op = OpAccept body -> (now <= Swap.expiresAt s)%Z).
Proof.
  destruct op as [body|rm| |]; unfold run_op, allowed_actor, source_ok;
    [unfold acceptSwap, Swap.isExpired | unfold declineSwap
    | unfold completeSwap | unfold cancelSwap];
    destruct (swaps d !! id) as [s|] eqn:Hs.
  all: try (split; [discriminate | by intros (s' & ? & _)]).
  - destruct (Swap.isOwner s actor) eqn:Hact; cbn [negb];
      [|split; [discriminate | intros (s' & [= <-] & ? & _); congruence]].
    destruct (bool_decide (Swap.status s = pending)) eqn:Hst; cbn [negb andb];
      [|split; [discriminate | intros (s' & [= <-] & _ & ? & _); congruence]].
    rewrite andb_true_r.
    destruct (Z.ltb_spec (Swap.expiresAt s) now) as [Hlt|Hge].
    + split; [discriminate|]. intros (s' & [= <-] & _ & _ & Hexp).
      specialize (Hexp body eq_refl). lia.
    + split; [|done]. intros _. exists s. repeat split; done.
  - destruct (Swap.isOwner s actor) eqn:Hact; cbn [negb];
      [|split; [discriminate | intros (s' & [= <-] & ? & _); congruence]].
    destruct (bool_decide (Swap.status s = pending)) eqn:Hst; cbn [negb];
      [|split; [discriminate | intros (s' & [= <-] & _ & ? & _); congruence]].
    split; [|done]. intros _. exists s. repeat split; done.
  - destruct (Swap.canModify s actor) eqn:Hact; cbn [negb];
      [|split; [discriminate | intros (s' & [= <-] & ? & _); congruence]].
    destruct (bool_decide (Swap.status s = accepted)) eqn:Hst; cbn [negb];
      [|split; [discriminate | intros (s' & [= <-] & _ & ? & _); congruence]].
    split; [|done]. intros _. exists s. repeat split; done.
  - destruct (Swap.isRequester s actor) eqn:Hact; cbn [negb];
      [|split; [discriminate | intros (s' & [= <-] & ? & _); congruence]].
    destruct (_ || _) eqn:Hst; cbn [negb];
      [|split; [discriminate | intros (s' & [= <-] & _ & ? & _); congruence]].
    split; [|done]. intros _. exists s. repeat split; done.
Qed.

Lemma Swap_accept_doc_identity id orig responseMessage meetingDetails d :
  exists s,
    Swap_accept id orig responseMessage meetingDetails d = Swap_save id (Some orig) s d
    /\ Swap.status s = accepted
    /\ same_identity orig s.
Proof.
  unfold Swap_accept.
  destruct (truthy (location meetingDetails)), (date meetingDetails);
    eexists; (split; [reflexivity|done]).
Qed.

(** A transition request that succeeds moves the swap it names to the
    target state of the transition and keeps its requester, owner, books,
    message, expiry and active flag; every other swap and every review is
    left as it was. *)
Theorem swap_op_success_effect (d : Db) (op : SwapOp) (actor id : N) (now : Z) :
  is_success (run_op op actor id now d).1 = true ->
  exists s s',
    swaps d !! id = Some s
    /\ swaps (run_op op actor id now d).2 !! id = Some s'
    /\ source_ok op (Swap.status s) = true
    /\ Swap.status s' = target op
    /\ same_identity s s'
    /\ (forall i, i <> id -> swaps (run_op op actor id now d).2 !! i = swaps d !! i)
    /\ reviews (run_op op actor id now d).2 = reviews d.
Proof.
  intros Hok.
  destruct (run_op_frame d op actor id now) as [Hrev Hother].
  apply swap_op_success_iff in Hok as (s & Hs & Hact & Hsrc & Hexp).
  exists s.
  assert (Hgoal : exists s', swaps (run_op op actor id now d).2 !! id = Some s'
            /\ Swap.status s' = target op /\ same_identity s s');
    [|destruct Hgoal as (s' & H1 & H2 & H3); by exists s'].
  destruct op as [body|rm| |]; unfold run_op, allowed_actor, source_ok, target in *.
  - specialize (Hexp body eq_refl).
    unfold acceptSwap, Swap.isExpired. rewrite Hs, Hact, Hsrc.
    replace (Swap.expiresAt s <? now)%Z with false
      by (symmetry; apply Z.ltb_ge; lia).
    cbn [negb andb snd].
    destruct (Swap_accept_doc_identity id s (body_responseMessage body)
      (mkMeeting (truthy (body_meetingLocation body)) (body_meetingDate body)) d)
      as (s' & -> & Hst' & Hid).
    exists s'. by rewrite Swap_save_swaps, lookup_insert_eq.
  - unfold declineSwap. rewrite Hs, Hact, Hsrc. cbn [negb snd].
    unfold Swap_decline. rewrite Swap_save_swaps, lookup_insert_eq.
    eexists. split; [reflexivity|]. done.
  - unfold completeSwap. rewrite Hs, Hact, Hsrc. cbn [negb snd].
    unfold Swap_complete. rewrite Swap_save_swaps, lookup_insert_eq.
    eexists. split; [reflexivity|]. done.
  - unfold cancelSwap. rewrite Hs, Hact, Hsrc. cbn [negb snd].
    unfold Swap_cancel. rewrite Swap_save_swaps, lookup_insert_eq.
    eexists. split; [reflexivity|]. done.
Qed.

Lemma swap_op_success_effect_witness :
  exists s', swaps (run_op OpCancel 2 0 2500 db2).2 !! 0%N = Some s'
    /\ Swap.status s' = cancelled.
Proof.
  destruct (swap_op_success_effect db2 OpCancel 2%N 0%N 2500%Z)
    as (s & s' & _ & H2 & _ & H4 & _).
  - vm_compute. reflexivity.
  - exists s'. split; [exact H2 | exact H4].
Defined.

(** ** Cancelling *)

(** A cancel by the requester of a pending or accepted swap answers
    success, stores status [cancelled], sets [isAvailable] to true on
    the two referenced books and changes no other book and no user. *)
Theorem cancel_live_swap (d : Db) (actor id : N) (s : Swap.t) :
  swaps d !! id = Some s ->
  Swap.requester s = actor ->
  Swap.status s = pending \/ Swap.status s = accepted ->
  (cancelSwap actor id d).1 = SwapCancelled
  /\ swaps (cancelSwap actor id d).2 !! id = Some (Swap.set_status cancelled s)
  /\ (forall b, books (cancelSwap actor id d).2 !! b
        = if decide (b = Swap.requestedBook s \/ b = Swap.offeredBook s)
          then Book.set_isAvailable true <$> books d !! b
          else books d !! b)
  /\ users (cancelSwap actor id d).2 = users d
  /\ Swap.status <$> swaps (cancelSwap actor id d).2 !! id = Some cancelled
  /\ (forall b bk, b = Swap.requestedBook s \/ b = Swap.offeredBook s ->
        books (cancelSwap actor id d).2 !! b = Some bk ->
        Book.isAvailable bk = true)
  /\ (forall b bk, b = Swap.requestedBook s \/ b = Swap.offeredBook s ->
        books d !! b = Some bk ->
        exists bk', books (cancelSwap actor id d).2 !! b = Some bk'
          /\ Book.isAvailable bk' = true
          /\ Book.title bk' = Book.title bk /\ Book.owner bk' = Book.owner bk
          /\ Book.ownerEmail bk' = Book.ownerEmail bk
          /\ Book.isActive bk' = Book.isActive bk
          /\ Book.viewCount bk' = Book.viewCount bk
          /\ Book.swapCount bk' = Book.swapCount bk).
Proof.
  intros Hs Hreq Hst.
  assert (Hrun : cancelSwap actor id d = (SwapCancelled, Swap_cancel id s d)).
  { unfold cancelSwap, Swap.isRequester. rewrite Hs, Hreq.
    rewrite bool_decide_eq_true_2 by done.
    destruct Hst as [-> | ->]; done. }
  rewrite Hrun. cbn [fst snd]. unfold Swap_cancel.
  assert (Hbooks : forall b,
    books (Swap_save id (Some s) (Swap.set_status cancelled s) d) !! b
    = if decide (b = Swap.requestedBook s \/ b = Swap.offeredBook s)
      then Book.set_isAvailable true <$> books d !! b
      else books d !! b).
  { intros b.
    rewrite (Swap_save_books_availability _ _ _ _ true); [done| |right; split; [done|by right]].
    simpl. destruct Hst as [-> | ->]; done. }
  split; [done|]. split; [by rewrite Swap_save_swaps, lookup_insert_eq|].
  split; [exact Hbooks|]. split; [by apply Swap_save_users_unchanged|].
  split; [by rewrite Swap_save_swaps, lookup_insert_eq|]. split.
  - intros b bk Hb Hbk. rewrite Hbooks, decide_True in Hbk by done.
    destruct (books d !! b); simpl in Hbk; [|done]. by inversion Hbk.
  - intros b bk Hb Hbk. rewrite Hbooks, decide_True, Hbk by done.
    eexists. split; [reflexivity|]. done.
Qed.

Lemma cancel_live_swap_witness :
  Book.isAvailable <$> books db2 !! 11%N = Some false
  /\ (cancelSwap 2 0 db2).1 = SwapCancelled
  /\ Book.isAvailable <$> books (cancelSwap 2 0 db2).2 !! 11%N = Some true.
Proof.
  destruct (cancel_live_swap db2 2%N 0%N
    (Swap.mk 2 1 11 12 accepted "" "" None None None 604801000 true))
    as (H1 & _ & _ & _ & _ & _ & H7).
  - vm_compute. reflexivity.
  - reflexivity.
  - right. reflexivity.
  - split; [vm_compute; reflexivity|]. split; [exact H1|].
    destruct (H7 11%N (Book.mk "t" (Some 1%N) "a@b.cd" false true 0 0)
                (or_introl eq_refl) eq_refl) as (bk' & -> & Hav & _).
    simpl. by rewrite Hav.
Defined.

(** Accepting a pending swap and then cancelling it gives the books
    back: when the two referenced books were available before the
    accept, the book collection after the cancel is the one before the
    accept, and no user record has changed. *)
Theorem accept_then_cancel_restores_books (d : Db) (id : N) (s : Swap.t)
    (body : AcceptBody) (now : Z) :
  swaps d !! id = Some s ->
  Swap.status s = pending ->
  (now <= Swap.expiresAt s)%Z ->
  (forall b bk, b = Swap.requestedBook s \/ b = Swap.offeredBook s ->
     books d !! b = Some bk -> Book.isAvailable bk = true) ->
  let d1 := (acceptSwap (Swap.owner s) id body now d).2 in
  (acceptSwap (Swap.owner s) id body now d).1 = SwapAccepted
  /\ (cancelSwap (Swap.requester s) id d1).1 = SwapCancelled
  /\ books (cancelSwap (Swap.requester s) id d1).2 = books d
  /\ users (cancelSwap (Swap.requester s) id d1).2 = users d
  /\ Swap.status <$> swaps (cancelSwap (Swap.requester s) id d1).2 !! id
     = Some cancelled.
Proof.
  intros Hs Hst Hexp Havail d1.
  assert (Hrun : acceptSwap (Swap.owner s) id body now d
    = (SwapAccepted,
       Swap_accept id s (body_responseMessage body)
         (mkMeeting (truthy (body_meetingLocation body)) (body_meetingDate body)) d)).
  { unfold acceptSwap, Swap.isOwner, Swap.isExpired. rewrite Hs, Hst.
    rewrite !bool_decide_eq_true_2 by done. simpl.
    replace (Swap.expiresAt s <? now)%Z with false
      by (symmetry; apply Z.ltb_ge; lia). done. }
  subst d1. rewrite Hrun. cbn [fst snd].
  destruct (Swap_accept_doc_identity id s (body_responseMessage body)
    (mkMeeting (truthy (body_meetingLocation body)) (body_meetingDate body)) d)
    as (s1 & -> & Hst1 & (Hrq & Hown & Hrb & Hob & _)).
  set (d1 := Swap_save id (Some s) s1 d).
  assert (Hs1 : swaps d1 !! id = Some s1)
    by (subst d1; by rewrite Swap_save_swaps, lookup_insert_eq).
  assert (Hrun2 : cancelSwap (Swap.requester s) id d1
                  = (SwapCancelled, Swap_cancel id s1 d1)).
  { unfold cancelSwap, Swap.isRequester. rewrite Hs1, Hrq, Hst1.
    by rewrite bool_decide_eq_true_2 by done. }
  rewrite Hrun2. cbn [fst snd]. unfold Swap_cancel.
  split; [done|]. split; [done|]. split; [|split].
  - apply map_eq. intros b.
    rewrite (Swap_save_books_availability _ _ _ _ true);
      [| simpl; by rewrite Hst1 | right; split; [done|by right]].
    subst d1.
    rewrite (Swap_save_books_availability _ _ _ _ false);
      [| simpl; by rewrite Hst, Hst1 | left; done].
    cbn [Swap.requestedBook Swap.offeredBook Swap.set_status]. rewrite Hrb, Hob.
    destruct (decide (_ \/ _)) as [Hb|Hb]; [|done].
    destruct (books d !! b) as [bk|] eqn:Hbk; [|done]. simpl.
    rewrite <- (Havail b bk Hb Hbk). by destruct bk.
  - rewrite Swap_save_users_unchanged by done.
    subst d1. apply Swap_save_users_unchanged. by rewrite Hst1.
  - by rewrite Swap_save_swaps, lookup_insert_eq.
Qed.

Lemma accept_then_cancel_restores_books_witness :
  books (cancelSwap 2 0 (acceptSwap 1 0 no_body 2000 db1).2).2 = books db1.
Proof.
  destruct (accept_then_cancel_restores_books db1 0%N
    (Swap.mk 2 1 11 12 pending "" "" None None None 604801000 true)
    no_body 2000%Z) as (_ & _ & H3 & _).
  - vm_compute. reflexivity.
  - reflexivity.
  - vm_compute. discriminate.
  - intros b bk [-> | ->] Hbk; vm_compute in Hbk; injection Hbk as <-; reflexivity.
  - exact H3.
Defined.

(** ** Counters *)

Lemma Swap_save_new id s d :
  Swap_save id None s d = with_swaps (insert id s) d.
Proof. reflexivity. Qed.

Lemma swapCount_set_isAvailable (v : bool) (P : Prop) `{!Decision P}
    (x : option Book.t) :
  Book.swapCount <$> (if decide P then Book.set_isAvailable v <$> x else x)
  = Book.swapCount <$> x.
Proof. destruct (decide P); [|done]. by destruct x. Qed.

Lemma Swap_save_counters id orig s d :
  Swap.status s <> completed ->
  (forall b, Book.swapCount <$> books (Swap_save id orig s d) !! b
             = Book.swapCount <$> books d !! b)
  /\ users (Swap_save id orig s d) = users d.
Proof.
  intros Hst. split; [|by apply Swap_save_users_unchanged].
  intros b. unfold Swap_save, swap_pre_save.
  destruct (Swap_isModified_status orig s); [|done].
  destruct (Swap.status s); try done; simpl;
    rewrite books_set_isAvailable2; apply swapCount_set_isAvailable.
Qed.

Lemma Review_save_books id orig v d :
  books (Review_save id orig v d) = books d.
Proof. by rewrite Review_save_writes_review. Qed.

Lemma Review_save_totalSwaps id orig v d u :
  User.totalSwaps <$> users (Review_save id orig v d) !! u
  = User.totalSwaps <$> users d !! u.
Proof.
  by rewrite Review_save_writes_review.
Qed.

Lemma createSwap_books_users (d : Db) (actor rb ob : N) (msg : string) (now : Z) :
  books (createSwap actor rb ob msg now d).2 = books d
  /\ users (createSwap actor rb ob msg now d).2 = users d.
Proof.
  unfold createSwap, createSwap_try, Book.canEdit.
  destruct (books d !! rb) as [rbk|]; [|done].
  destruct (negb (Book.isActive rbk) || negb (Book.isAvailable rbk)); [done|].
  destruct (books d !! ob) as [obk|]; [|done].
  destruct (negb (Book.isActive obk) || negb (Book.isAvailable obk)); [done|].
  destruct (Book.owner obk) as [oo|]; [|done].
  destruct (bool_decide (oo = actor)); [|done].
  destruct (Book.owner rbk) as [ro|]; [|done].
  destruct (bool_decide (ro = actor)); [done|].
  destruct (findOne _ _); [done|].
  cbn [snd]. by rewrite Swap_save_new.
Qed.

(** The swap counters move on completion only: unless the reply is the
    success of a complete request, [swapCount] of every book and
    [totalSwaps] of every user are the same after a request of the swap
    and review routers as before it. *)
Theorem counters_move_only_on_completion (req : Request) (now : Z) (d : Db) :
  (handle req now d).1 <> SwapCompleted ->
  (forall b, Book.swapCount <$> books (handle req now d).2 !! b
             = Book.swapCount <$> books d !! b)
  /\ (forall u, User.totalSwaps <$> users (handle req now d).2 !! u
                = User.totalSwaps <$> users d !! u).
Proof.
  destruct req as [actor rb ob msg|op actor id|actor swapId revieweeId rating comment
                  |actor id rating comment|actor actorRole id]; unfold handle.
  - intros _. destruct (createSwap_books_users d actor rb ob msg now) as [-> ->]. done.
  - destruct op as [body|rm| |]; unfold run_op;
      [unfold acceptSwap | unfold declineSwap | unfold completeSwap | unfold cancelSwap];
      repeat case_match; try done; cbn [fst snd]; intros _.
    + destruct (Swap_accept_doc id t (body_responseMessage body)
        (mkMeeting (truthy (body_meetingLocation body)) (body_meetingDate body)) d)
        as (s' & -> & Hst' & _).
      destruct (Swap_save_counters id (Some t) s' d) as [Hb ->]; [by rewrite Hst'|]. done.
    + unfold Swap_decline.
      destruct (Swap_save_counters id (Some t)
        (Swap.set_responseMessage (default EmptyString rm) (Swap.set_status declined t)) d)
        as [Hb ->]; done.
    + unfold Swap_cancel.
      destruct (Swap_save_counters id (Some t) (Swap.set_status cancelled t) d)
        as [Hb ->]; done.
  - intros _. unfold createReview. repeat case_match; try done; cbn [snd];
      rewrite Review_save_books; split; [done|]; intros u; apply Review_save_totalSwaps.
  - intros _. unfold updateReview. repeat case_match; try done; cbn [snd];
      rewrite Review_save_books; split; try done; intros u; apply Review_save_totalSwaps.
  - intros _. unfold deleteReview. repeat case_match; try done; cbn [snd];
      rewrite Review_save_books; split; [done|]; intros u; apply Review_save_totalSwaps.
Qed.

Lemma counters_move_only_on_completion_witness :
  Book.swapCount <$> books (handle (ReqSwapOp (OpAccept no_body) 1 0) 2000 db1).2 !! 11%N
  = Book.swapCount <$> books db1 !! 11%N.
Proof.
  destruct (counters_move_only_on_completion (ReqSwapOp (OpAccept no_body) 1 0)
              2000%Z db1) as [H _].
  - vm_compute. discriminate.
  - exact (H 11%N).
Defined.

(** ** What no request changes *)

Lemma run_op_keeps_identity (d : Db) (op : SwapOp) (actor id : N) (now : Z)
    (i : N) (s : Swap.t) :
  swaps d !! i = Some s ->
  exists s', swaps (run_op op actor id now d).2 !! i = Some s' /\ same_identity s s'.
Proof.
  intros Hs.
  destruct (decide (i = id)) as [->|Hne].
  - destruct (is_success (run_op op actor id now d).1) eqn:Hok.
    + destruct op as [body|rm| |]; unfold run_op in *;
        [unfold acceptSwap in * | unfold declineSwap in *
        | unfold completeSwap in * | unfold cancelSwap in *];
        rewrite Hs in *; repeat case_match; try discriminate; cbn [snd].
      * destruct (Swap_accept_doc_identity id s (body_responseMessage body)
          (mkMeeting (truthy (body_meetingLocation body)) (body_meetingDate body)) d)
          as (s' & -> & _ & Hid).
        exists s'. by rewrite Swap_save_swaps, lookup_insert_eq.
      * unfold Swap_decline. rewrite Swap_save_swaps, lookup_insert_eq.
        eexists. split; [reflexivity|done].
      * unfold Swap_complete. rewrite Swap_save_swaps, lookup_insert_eq.
        eexists. split; [reflexivity|done].
      * unfold Swap_cancel. rewrite Swap_save_swaps, lookup_insert_eq.
        eexists. split; [reflexivity|done].
    + rewrite (run_op_rejected_writes_nothing d op actor id now Hok).
      exists s. done.
  - destruct (run_op_frame d op actor id now) as [_ Hother].
    exists s. by rewrite Hother.
Qed.

Lemma step_keeps_identity (d d' : Db) (i : N) (s : Swap.t) :
  step d d' ->
  swaps d !! i = Some s ->
  exists s', swaps d' !! i = Some s' /\ same_identity s s'.
Proof.
  intros Hstep Hs.
  destruct Hstep as [actor rb ob msg now d|op actor id now d
    |actor swapId revieweeId rating comment d|actor id rating comment d
    |actor actorRole id d|d d' Hsw Hrv].
  - exists s. split; [by apply createSwap_frame | done].
  - by apply run_op_keeps_identity.
  - exists s. split; [|done].
    unfold createReview. repeat case_match; try done;
      cbn [snd]; by rewrite Review_save_swaps.
  - exists s. split; [|done].
    unfold updateReview. repeat case_match; try done;
      cbn [snd]; by rewrite Review_save_swaps.
  - exists s. split; [|done].
    unfold deleteReview. repeat case_match; try done;
      cbn [snd]; by rewrite Review_save_swaps.
  - exists s. by rewrite Hsw.
Qed.

(** Through any sequence of requests a stored swap stays stored under
    its id with the same requester, owner, books, message, expiry and
    active flag; and once it is declined, completed or cancelled the
    whole record stays as it is. *)
Theorem swap_record_is_permanent (d d' : Db) (i : N) (s : Swap.t) :
  rtc step d d' ->
  swaps d !! i = Some s ->
  exists s', swaps d' !! i = Some s'
    /\ same_identity s s'
    /\ (terminal (Swap.status s) = true -> s' = s).
Proof.
  intros Hsteps. revert s.
  induction Hsteps as [d|d1 d2 d3 Hstep _ IH]; intros s Hs.
  - exists s. done.
  - destruct (step_keeps_identity d1 d2 i s Hstep Hs) as (s2 & Hs2 & Hid2).
    destruct (IH s2 Hs2) as (s3 & Hs3 & Hid3 & Hterm3).
    exists s3. split; [done|]. split.
    + destruct Hid2 as (?&?&?&?&?&?&?), Hid3 as (?&?&?&?&?&?&?).
      unfold same_identity. repeat split; congruence.
    + intros Hterm.
      pose proof (step_keeps_terminal_swap d1 d2 i s Hstep Hs Hterm) as Hs2'.
      assert (s2 = s) as -> by congruence. by apply Hterm3.
Qed.

Lemma swap_record_is_permanent_witness :
  exists s', swaps db5 !! 0%N = Some s' /\ Swap.requester s' = 2%N.
Proof.
  destruct (swap_record_is_permanent db1 db5 0%N
    (Swap.mk 2 1 11 12 pending "" "" None None None 604801000 true))
    as (s' & H1 & (H2 & _) & _).
  - eapply rtc_l; [apply (step_swap_op (OpAccept no_body) 1 0 2000 db1)|].
    eapply rtc_l; [apply (step_swap_op OpComplete 2 0 3000 db2)|].
    eapply rtc_l; [apply (step_createReview 2 0 1 4 "" db3)|].
    apply rtc_once. apply (step_deleteReview 2 user 0 db4).
  - vm_compute. reflexivity.
  - exists s'. split; [exact H1 | exact H2].
Defined.

(** ** Listing swaps *)

Lemma find_lookup_Some {A : Type} (query : A -> bool) (c : gmap N A) (i : N) (a : A) :
  find query c !! i = Some a <-> c !! i = Some a /\ query a = true.
Proof. unfold find. by rewrite map_lookup_filter_Some. Qed.

(** A swap that the pending list of a user shows at some time can be
    accepted by that user at that time; it is also one of the swaps the
    general list shows as received and pending. *)
Theorem listed_pending_swap_can_be_accepted (d : Db) (userId id : N) (s : Swap.t)
    (body : AcceptBody) (now : Z) :
  find (findPendingSwaps_query userId now) (swaps d) !! id = Some s ->
  (acceptSwap userId id body now d).1 = SwapAccepted
  /\ find (listSwaps_query userId received (Some pending)) (swaps d) !! id = Some s.
Proof.
  rewrite !find_lookup_Some. unfold findPendingSwaps_query, listSwaps_query.
  intros [Hs Hq].
  apply andb_true_iff in Hq as [Hq Hexp]. apply andb_true_iff in Hq as [Hq Hact].
  apply andb_true_iff in Hq as [Hq Hst].
  apply bool_decide_eq_true_1 in Hq. apply bool_decide_eq_true_1 in Hst.
  apply Z.ltb_lt in Hexp.
  split.
  - unfold acceptSwap, Swap.isOwner, Swap.isExpired. rewrite Hs, Hq, Hst.
    rewrite !bool_decide_eq_true_2 by done. simpl.
    replace (Swap.expiresAt s <? now)%Z with false
      by (symmetry; apply Z.ltb_ge; lia). done.
  - split; [done|]. rewrite Hq, Hst, Hact.
    by rewrite !bool_decide_eq_true_2 by done.
Qed.

Lemma listed_pending_swap_can_be_accepted_witness :
  (acceptSwap 1 0 no_body 2000 db1).1 = SwapAccepted.
Proof.
  destruct (listed_pending_swap_can_be_accepted db1 1%N 0%N
    (Swap.mk 2 1 11 12 pending "" "" None None None 604801000 true)
    no_body 2000%Z) as [H _].
  - apply find_lookup_Some. split; vm_compute; reflexivity.
  - exact H.
Defined.

(** The pending list leaves out a swap at the very instant it expires,
    although the accept route still takes it: [expiresAt > now] in the
    one, [expiresAt < now] in the other. *)
Theorem swap_at_expiry_instant (d : Db) (userId id : N) (s : Swap.t)
    (body : AcceptBody) :
  swaps d !! id = Some s ->
  Swap.owner s = userId ->
  Swap.status s = pending ->
  find (findPendingSwaps_query userId (Swap.expiresAt s)) (swaps d) !! id = None
  /\ (acceptSwap userId id body (Swap.expiresAt s) d).1 = SwapAccepted.
Proof.
  intros Hs Hown Hst. split.
  - destruct (find _ _ !! id) as [s'|] eqn:Hf; [|done].
    apply find_lookup_Some in Hf as [Hs' Hq].
    unfold findPendingSwaps_query in Hq.
    apply andb_true_iff in Hq as [_ Hq]. apply Z.ltb_lt in Hq.
    assert (s' = s) as -> by congruence. lia.
  - unfold acceptSwap, Swap.isOwner, Swap.isExpired. rewrite Hs, Hown, Hst.
    rewrite !bool_decide_eq_true_2 by done. simpl.
    by rewrite Z.ltb_irrefl.
Qed.

Lemma swap_at_expiry_instant_witness :
  find (findPendingSwaps_query 1 604801000) (swaps db1) !! 0%N = None
  /\ (acceptSwap 1 0 no_body 604801000 db1).1 = SwapAccepted.
Proof.
  apply (swap_at_expiry_instant db1 1%N 0%N
    (Swap.mk 2 1 11 12 pending "" "" None None None 604801000 true) no_body).
  - vm_compute. reflexivity.
  - reflexivity.
  - reflexivity.
Defined.

(** A swap that a list request shows to a user, whatever the type and
    status filters, is active and has the user as a party, and yet the
    user cannot fetch it by id: with both parties stored, the request is
    answered 403, because the party check runs on the populated
    documents.  No fetch by id, by any actor, returns a swap. *)
Theorem listed_swap_cannot_be_fetched (d : Db) (userId id : N) (type : ListType)
    (status : option SwapStatus) (s : Swap.t) :
  find (listSwaps_query userId type status) (swaps d) !! id = Some s ->
  is_Some (users d !! Swap.requester s) ->
  is_Some (users d !! Swap.owner s) ->
  Swap.isActive s = true
  /\ Swap.canModify s userId = true
  /\ getSwap userId id d = FetchForbidden
  /\ (forall actor id' s', getSwap actor id' d <> Fetched s').
Proof.
  rewrite find_lookup_Some. intros [Hs Hq] [r Hr] [o Ho].
  unfold listSwaps_query in Hq.
  apply andb_true_iff in Hq as [Hq _]. apply andb_true_iff in Hq as [Hact Hq].
  split; [done|]. split; [|split].
  - unfold Swap.canModify.
    destruct type; rewrite ?Hq; by rewrite ?orb_true_r.
  - unfold getSwap, populate_user. by rewrite Hs, Hr, Ho.
  - intros actor id' s'. unfold getSwap, canModify_populated, populate_user.
    destruct (swaps d !! id') as [w|]; [|done].
    by destruct (users d !! Swap.requester w), (users d !! Swap.owner w).
Qed.

Lemma listed_swap_cannot_be_fetched_witness :
  find (listSwaps_query 2 sent None) (swaps db1) !! 0%N
  = Some (Swap.mk 2 1 11 12 pending "" "" None None None 604801000 true)
  /\ getSwap 2 0 db1 = FetchForbidden.
Proof.
  assert (Hl : find (listSwaps_query 2 sent None) (swaps db1) !! 0%N
    = Some (Swap.mk 2 1 11 12 pending "" "" None None None 604801000 true)).
  { apply find_lookup_Some. split; vm_compute; reflexivity. }
  split; [exact Hl|].
  destruct (listed_swap_cannot_be_fetched db1 2%N 0%N sent None
    (Swap.mk 2 1 11 12 pending "" "" None None None 604801000 true))
    as (_ & _ & H & _).
  - exact Hl.
  - exists new_user. vm_compute. reflexivity.
  - exists new_user. vm_compute. reflexivity.
  - exact H.
Defined.

(** The list of type [all] is the union of the lists of type [sent] and
    [received], for every status filter. *)
Theorem list_all_is_sent_or_received (d : Db) (userId id : N)
    (status : option SwapStatus) (s : Swap.t) :
  find (listSwaps_query userId all status) (swaps d) !! id = Some s
  <-> find (listSwaps_query userId sent status) (swaps d) !! id = Some s
      \/ find (listSwaps_query userId received status) (swaps d) !! id = Some s.
Proof.
  rewrite !find_lookup_Some. unfold listSwaps_query.
  destruct (Swap.isActive s), (bool_decide (Swap.requester s = userId)),
    (bool_decide (Swap.owner s = userId)), status as [st|];
    try destruct (bool_decide (Swap.status s = st)); simpl; intuition congruence.
Qed.

(** ** Review eligibility *)

(** The eligibility route tells a user they can review [r] for a swap
    exactly when a create request of that user for that swap and
    reviewee [r] is accepted. *)
Theorem eligible_iff_createReview (d : Db) (actor swapId r : N) (rating : Z)
    (comment : string) :
  eligible actor swapId d = CanReview r
  <-> exists id, (createReview actor swapId r rating comment d).1 = ReviewCreated id.
Proof.
  unfold eligible, createReview, Swap.canModify.
  destruct (swaps d !! swapId) as [s|]; [|split; [discriminate | by intros [? ?]]].
  destruct (bool_decide (Swap.status s = completed)); cbn [negb];
    [|split; [discriminate | by intros [? ?]]].
  destruct (bool_decide (Swap.requester s = actor)) eqn:Hrq;
    destruct (bool_decide (Swap.owner s = actor)) eqn:Hown; cbn [negb orb];
    try (split; [discriminate | by intros [? ?]]).
  - (* the actor is both parties *)
    apply bool_decide_eq_true_1 in Hrq. apply bool_decide_eq_true_1 in Hown.
    destruct (decide (Swap.owner s = r)) as [Hr|Hr].
    + rewrite Hr. rewrite (bool_decide_eq_true_2 (r = r)) by done.
      assert (Swap.requester s = r) as -> by congruence.
      rewrite (bool_decide_eq_true_2 (r = r)) by done. cbn [andb orb negb].
      destruct (findOne _ _); cbn [fst].
      * split; [discriminate | by intros [? ?]].
      * split; [by eexists | done].
    + rewrite (bool_decide_eq_false_2 (Swap.owner s = r)) by done.
      assert (Swap.requester s <> r) by congruence.
      rewrite (bool_decide_eq_false_2 (Swap.requester s = r)) by done.
      cbn [andb orb negb fst].
      split; [|by intros [? ?]].
      destruct (findOne _ _); [discriminate|]. intros [= ?]. done.
  - (* the actor is the requester *)
    rewrite andb_false_r, andb_true_r. cbn [orb].
    destruct (decide (Swap.owner s = r)) as [Hr|Hr].
    + rewrite Hr. rewrite (bool_decide_eq_true_2 (r = r)) by done. cbn [negb].
      destruct (findOne _ _); cbn [fst].
      * split; [discriminate | by intros [? ?]].
      * split; [by eexists | done].
    + rewrite (bool_decide_eq_false_2 (Swap.owner s = r)) by done. cbn [negb fst].
      split; [|by intros [? ?]].
      destruct (findOne _ _); [discriminate|]. intros [= ?]. done.
  - (* the actor is the owner *)
    rewrite andb_false_r, andb_true_r, orb_false_r.
    destruct (decide (Swap.requester s = r)) as [Hr|Hr].
    + rewrite Hr. rewrite (bool_decide_eq_true_2 (r = r)) by done. cbn [negb].
      destruct (findOne _ _); cbn [fst].
      * split; [discriminate | by intros [? ?]].
      * split; [by eexists | done].
    + rewrite (bool_decide_eq_false_2 (Swap.requester s = r)) by done. cbn [negb fst].
      split; [|by intros [? ?]].
      destruct (findOne _ _); [discriminate|]. intros [= ?]. done.
Qed.

(** ** The aggregate as reviews are written *)

Lemma calculateUserRating_stats (u : N) (d : Db) :
  calculateUserRating u d
  = rating_of_stats (sum_ratings (match_stage u d)) (length (match_stage u d)).
Proof.
  unfold calculateUserRating, group_stage.
  by destruct (match_stage u d).
Qed.

Lemma sum_ratings_app (l k : list Review.t) :
  sum_ratings (l ++ k) = (sum_ratings l + sum_ratings k)%Z.
Proof. induction l as [|v l IH]; simpl; lia. Qed.

(** The matched documents when one review is written: the others stay. *)
Lemma match_stage_insert (d : Db) (u id : N) (v' : Review.t) :
  exists rest,
    match_stage u (with_reviews (insert id v') d)
      ≡ₚ filter (fun v => Review.reviewee v = u /\ Review.isActive v = true) [v'] ++ rest
    /\ match_stage u d
      ≡ₚ filter (fun v => Review.reviewee v = u /\ Review.isActive v = true)
           (option_list (reviews d !! id)) ++ rest.
Proof.
  exists (filter (fun v => Review.reviewee v = u /\ Review.isActive v = true)
            (map_to_list (delete id (reviews d))).*2).
  unfold match_stage. cbn [reviews with_reviews]. split.
  - rewrite <- insert_delete_eq.
    rewrite map_to_list_insert by apply lookup_delete_eq.
    rewrite fmap_cons. cbn [snd]. by rewrite <- filter_app.
  - destruct (reviews d !! id) as [v|] eqn:Hv; cbn [option_list].
    + rewrite <- (insert_id (reviews d) id v Hv) at 1.
      rewrite <- insert_delete_eq.
      rewrite map_to_list_insert by apply lookup_delete_eq.
      rewrite fmap_cons. cbn [snd]. by rewrite <- filter_app.
    + rewrite delete_id by done. reflexivity.
Qed.

Lemma totalReviews_of_stats (sum : Z) (n : nat) :
  totalReviews (rating_of_stats sum n) = Z.of_nat n.
Proof. by destruct n. Qed.

Lemma match_filter_true (u : N) (v : Review.t) :
  Review.reviewee v = u -> Review.isActive v = true ->
  filter (fun v => Review.reviewee v = u /\ Review.isActive v = true) [v] = [v].
Proof. intros. by rewrite filter_cons_True. Qed.

Lemma match_filter_inactive (u : N) (v : Review.t) :
  Review.isActive v = false ->
  filter (fun v => Review.reviewee v = u /\ Review.isActive v = true) [v] = [].
Proof. intros Hv. rewrite filter_cons_False; [done|]. rewrite Hv. by intros [_ ?]. Qed.

Lemma stats_Permutation (l k : list Review.t) :
  l ≡ₚ k ->
  rating_of_stats (sum_ratings l) (length l) = rating_of_stats (sum_ratings k) (length k).
Proof.
  intros Hp. by rewrite (sum_ratings_Permutation l k Hp), (Permutation_length Hp).
Qed.

(** ** Creating, updating and deleting reviews *)

(** A create request that succeeds stores one new active review under an
    unused id; the number of active reviews of the reviewee goes up by
    one, and no user, no swap and no book is written: the stored rating
    and count of the reviewee stay as they were. *)
Theorem createReview_success_effect (d : Db) (actor swapId revieweeId : N)
    (rating : Z) (comment : string) (id : N) :
  (createReview actor swapId revieweeId rating comment d).1 = ReviewCreated id ->
  let d' := (createReview actor swapId revieweeId rating comment d).2 in
  reviews d !! id = None
  /\ reviews d' = <[id := Review.mk actor revieweeId swapId rating comment true]> (reviews d)
  /\ totalReviews (calculateUserRating revieweeId d')
     = (totalReviews (calculateUserRating revieweeId d) + 1)%Z
  /\ users d' = users d
  /\ swaps d' = swaps d
  /\ books d' = books d.
Proof.
  intros Hok d'. revert Hok. subst d'. unfold createReview.
  destruct (swaps d !! swapId) as [s|]; [|discriminate].
  destruct (negb (bool_decide (Swap.status s = completed))); [discriminate|].
  destruct (negb (Swap.canModify s actor)); [discriminate|].
  destruct (negb _); [discriminate|].
  destruct (findOne _ _); [discriminate|].
  cbn [fst snd]. intros [= <-].
  set (v := Review.mk actor revieweeId swapId rating comment true).
  set (i := fresh (dom (reviews d))).
  assert (Hfresh : reviews d !! i = None) by apply not_elem_of_dom, is_fresh.
  rewrite Review_save_reviews, Review_save_swaps, Review_save_books, Review_save_users.
  split; [done|]. split; [done|]. split; [|done].
  rewrite (calculateUserRating_reviews (Review_save i None v d)
             (with_reviews (insert i v) d) revieweeId)
    by (by rewrite Review_save_reviews).
  rewrite !calculateUserRating_stats, !totalReviews_of_stats.
  destruct (match_stage_insert d revieweeId i v) as (rest & H1 & H2).
  rewrite Hfresh in H2. change (filter _ (option_list None) ++ rest) with rest in H2.
  rewrite (match_filter_true revieweeId v) in H1 by done.
  rewrite (Permutation_length H1), (Permutation_length H2).
  cbn [length app]. lia.
Qed.

Lemma createReview_success_effect_witness :
  totalReviews (calculateUserRating 1 (createReview 2 0 1 4 "" db3).2)
  = (totalReviews (calculateUserRating 1 db3) + 1)%Z
  /\ users (createReview 2 0 1 4 "" db3).2 !! 1%N = Some (User.mk user 0 0 1).
Proof.
  destruct (createReview_success_effect db3 2%N 0%N 1%N 4%Z "" 0%N)
    as (_ & _ & H & Hu & _).
  - vm_compute. reflexivity.
  - split; [exact H|]. rewrite Hu. vm_compute. reflexivity.
Defined.

(** An update that succeeds is made by the reviewer of an active review;
    it stores the review with the rating and the comment of the request,
    where given, and every other field as it was.  The number of active
    reviews of the reviewee is the same, and no user, no swap and no book
    is written: the stored rating of the reviewee does not follow a
    changed rating. *)
Theorem updateReview_success_effect (d : Db) (actor id : N) (rating : option Z)
    (comment : option string) (v : Review.t) :
  reviews d !! id = Some v ->
  (updateReview actor id rating comment d).1 = ReviewUpdated ->
  let d' := (updateReview actor id rating comment d).2 in
  Review.reviewer v = actor
  /\ Review.isActive v = true
  /\ reviews d'
     = <[id := Review.mk (Review.reviewer v) (Review.reviewee v) (Review.swap v)
                 (default (Review.rating v) rating)
                 (default (Review.comment v) comment) true]> (reviews d)
  /\ totalReviews (calculateUserRating (Review.reviewee v) d')
     = totalReviews (calculateUserRating (Review.reviewee v) d)
  /\ users d' = users d
  /\ swaps d' = swaps d
  /\ books d' = books d.
Proof.
  intros Hv. unfold updateReview. rewrite Hv.
  destruct (Review.isActive v) eqn:Hact; cbn [negb]; [|discriminate].
  destruct (Review.canEdit v actor) eqn:Hed; cbn [negb]; [|discriminate].
  cbn [fst snd]. intros _.
  apply bool_decide_eq_true_1 in Hed.
  set (v1 := match rating with Some r => Review.set_rating r v | None => v end).
  set (v2 := match comment with Some c => Review.set_comment c v1 | None => v1 end).
  assert (Hv2 : v2 = Review.mk (Review.reviewer v) (Review.reviewee v) (Review.swap v)
                       (default (Review.rating v) rating)
                       (default (Review.comment v) comment) true).
  { subst v1 v2. destruct v. simpl in Hact. subst. by destruct rating, comment. }
  rewrite Review_save_reviews, Review_save_swaps, Review_save_books, Review_save_users.
  split; [done|]. split; [done|]. split; [by rewrite Hv2|]. split; [|done].
  rewrite (calculateUserRating_reviews (Review_save id (Some v) v2 d)
             (with_reviews (insert id v2) d) (Review.reviewee v))
    by (by rewrite Review_save_reviews).
  rewrite !calculateUserRating_stats, !totalReviews_of_stats.
  destruct (match_stage_insert d (Review.reviewee v) id v2) as (rest & Hp1 & Hp2).
  rewrite Hv in Hp2. cbn [option_list] in Hp2.
  rewrite (match_filter_true _ v2) in Hp1 by (by rewrite Hv2).
  rewrite (match_filter_true _ v) in Hp2 by done.
  rewrite (Permutation_length Hp1), (Permutation_length Hp2).
  reflexivity.
Qed.

Lemma updateReview_success_effect_witness :
  reviews (updateReview 2 0 (Some 2%Z) None db4).2 !! 0%N
  = Some (Review.mk 2 1 0 2 "" true)
  /\ calculateUserRating 1 (updateReview 2 0 (Some 2%Z) None db4).2
     = mkRatingData (20 # 10) 1
  /\ users (updateReview 2 0 (Some 2%Z) None db4).2 !! 1%N
     = Some (User.mk user 0 0 1).
Proof.
  destruct (updateReview_success_effect db4 2%N 0%N (Some 2%Z) None
    (Review.mk 2 1 0 4 "" true)) as (_ & _ & Hr & _ & Hu & _).
  - vm_compute. reflexivity.
  - vm_compute. reflexivity.
  - split; [by rewrite Hr, lookup_insert_eq|].
    split; [vm_compute; reflexivity|].
    rewrite Hu. vm_compute. reflexivity.
Defined.

(** After a soft delete that succeeded the review is still stored, but
    inactive: fetching it, updating it and deleting it again are all
    answered 404 and write nothing, and the aggregate of the reviewee
    counts one review less. *)
Theorem after_soft_delete (d : Db) (actor : N) (actorRole : Role) (id : N) :
  (deleteReview actor actorRole id d).1 = ReviewDeleted ->
  let d' := (deleteReview actor actorRole id d).2 in
  exists v,
    reviews d !! id = Some v
    /\ Review.isActive v = true
    /\ reviews d' = <[id := Review.set_isActive false v]> (reviews d)
    /\ getReview id d' = FetchNotFound
    /\ (forall a rating comment, updateReview a id rating comment d' = (ReviewNotFound, d'))
    /\ (forall a r, deleteReview a r id d' = (ReviewNotFound, d'))
    /\ totalReviews (calculateUserRating (Review.reviewee v) d')
       = (totalReviews (calculateUserRating (Review.reviewee v) d) - 1)%Z.
Proof.
  intros Hok d'.
  assert (Hrun : exists v, reviews d !! id = Some v /\ Review.isActive v = true
            /\ deleteReview actor actorRole id d
               = (ReviewDeleted, Review_save id (Some v) (Review.set_isActive false v) d)).
  { revert Hok. unfold deleteReview.
    destruct (reviews d !! id) as [v|] eqn:Hv; [|discriminate].
    destruct (Review.isActive v) eqn:Hact; cbn [negb]; [|discriminate].
    destruct (negb (Review.canEdit v actor) && negb (bool_decide (actorRole = admin)));
      [discriminate|].
    intros _. by exists v. }
  destruct Hrun as (v & Hv & Hact & Hrun). subst d'. rewrite Hrun. cbn [snd].
  exists v.
  set (d' := Review_save id (Some v) (Review.set_isActive false v) d).
  assert (Hrev : reviews d' = <[id := Review.set_isActive false v]> (reviews d))
    by (subst d'; apply Review_save_reviews).
  assert (Hv' : reviews d' !! id = Some (Review.set_isActive false v))
    by (by rewrite Hrev, lookup_insert_eq).
  split; [done|]. split; [done|]. split; [done|].
  split; [unfold getReview; by rewrite Hv'|].
  split; [intros a rating comment; unfold updateReview; by rewrite Hv'|].
  split; [intros a r; unfold deleteReview; by rewrite Hv'|].
  rewrite (calculateUserRating_reviews d'
             (with_reviews (insert id (Review.set_isActive false v)) d)
             (Review.reviewee v)) by done.
  rewrite !calculateUserRating_stats, !totalReviews_of_stats.
  destruct (match_stage_insert d (Review.reviewee v) id (Review.set_isActive false v))
    as (rest & H1 & H2).
  rewrite Hv in H2. cbn [option_list] in H2.
  rewrite (match_filter_inactive _ (Review.set_isActive false v)) in H1 by done.
  rewrite (match_filter_true _ v) in H2 by done.
  rewrite (Permutation_length H1), (Permutation_length H2).
  cbn [length app]. lia.
Qed.

Lemma after_soft_delete_witness :
  getReview 0 db5 = FetchNotFound
  /\ deleteReview 2 user 0 db5 = (ReviewNotFound, db5).
Proof.
  destruct (after_soft_delete db4 2%N user 0%N) as (v & _ & _ & _ & H4 & _ & H6 & _).
  - vm_compute. reflexivity.
  - split; [exact H4 | exact (H6 2%N user)].
Defined.

(** A request of the review router writes no swap and no book, and of
    the users at most the reviewee, of whom it keeps the role and the
    swap counter. *)
Theorem review_request_frame (req : Request) (now : Z) (d : Db) (u : N) :
  (forall actor rb ob msg, req <> ReqCreateSwap actor rb ob msg) ->
  (forall op actor id, req <> ReqSwapOp op actor id) ->
  swaps (handle req now d).2 = swaps d
  /\ books (handle req now d).2 = books d
  /\ (reviewee_of req d <> Some u -> users (handle req now d).2 !! u = users d !! u)
  /\ User.role <$> users (handle req now d).2 !! u = User.role <$> users d !! u
  /\ User.totalSwaps <$> users (handle req now d).2 !! u
     = User.totalSwaps <$> users d !! u.
Proof.
  intros Hnc Hno.
  assert (Hsave : forall id orig v,
    swaps (Review_save id orig v d) = swaps d
    /\ books (Review_save id orig v d) = books d
    /\ (Review.reviewee v <> u -> users (Review_save id orig v d) !! u = users d !! u)
    /\ User.role <$> users (Review_save id orig v d) !! u = User.role <$> users d !! u
    /\ User.totalSwaps <$> users (Review_save id orig v d) !! u
       = User.totalSwaps <$> users d !! u).
  { intros id orig v. rewrite Review_save_swaps, Review_save_books.
    split; [done|]. split; [done|].
    by rewrite Review_save_writes_review. }
  destruct req as [actor rb ob msg|op actor id|actor swapId revieweeId rating comment
                  |actor id rating comment|actor actorRole id];
    [by destruct (Hnc actor rb ob msg) | by destruct (Hno op actor id) | | |];
    unfold handle, reviewee_of.
  - unfold createReview. repeat case_match; try done. cbn [snd].
    destruct (Hsave (fresh (dom (reviews d))) None
                (Review.mk actor revieweeId swapId rating comment true))
      as (? & ? & Hoth & ? & ?).
    repeat split; try done. intros Hne. apply Hoth. cbn. congruence.
  - unfold updateReview.
    destruct (reviews d !! id) as [v|]; [|done].
    destruct (negb (Review.isActive v)); [done|].
    destruct (negb (Review.canEdit v actor)); [done|]. cbn [snd].
    match goal with |- context [Review_save id (Some v) ?w d] =>
      destruct (Hsave id (Some v) w) as (? & ? & Hoth & ? & ?);
      assert (Review.reviewee w = Review.reviewee v) as Hee
        by (by destruct rating, comment)
    end.
    repeat split; try done. intros Hne. apply Hoth. rewrite Hee.
    cbn in Hne. congruence.
  - unfold deleteReview.
    destruct (reviews d !! id) as [v|]; [|done].
    destruct (negb (Review.isActive v)); [done|].
    destruct (negb (Review.canEdit v actor) && negb (bool_decide (actorRole = admin)));
      [done|]. cbn [snd].
    destruct (Hsave id (Some v) (Review.set_isActive false v)) as (? & ? & Hoth & ? & ?).
    repeat split; try done. intros Hne. apply Hoth. cbn in *. congruence.
Qed.

Lemma review_request_frame_witness :
  swaps (handle (ReqCreateReview 2 0 1 4 "") 0 db3).2 = swaps db3
  /\ users (handle (ReqCreateReview 2 0 1 4 "") 0 db3).2 !! 2%N = users db3 !! 2%N.
Proof.
  destruct (review_request_frame (ReqCreateReview 2 0 1 4 "") 0%Z db3 2%N)
    as (H1 & _ & H3 & _).
  - discriminate.
  - discriminate.
  - split; [exact H1|]. apply H3. discriminate.
Defined.

(** ** The range of the average *)

Lemma sum_ratings_bounds (l : list Review.t) :
  Forall (fun v => (1 <= Review.rating v <= 5)%Z) l ->
  (Z.of_nat (length l) <= sum_ratings l <= 5 * Z.of_nat (length l))%Z.
Proof. induction 1 as [|v l Hv _ IH]; simpl; lia. Qed.

Lemma rounded_mean_bounds (sum n : Z) :
  (0 < n)%Z -> (n <= sum <= 5 * n)%Z ->
  (10 <= Math_round (inject_Z sum / inject_Z n * inject_Z 10) <= 50)%Z.
Proof.
  intros Hn [Hlo Hhi].
  destruct (Math_round_nearest (inject_Z sum / inject_Z n * inject_Z 10)) as [H1 H2].
  set (t := Math_round _) in *.
  assert (Hn' : (0 < inject_Z n)%Q) by (by rewrite Zlt_Qlt in Hn).
  assert (Hx1 : (1 <= inject_Z sum / inject_Z n)%Q).
  { apply Qle_shift_div_l; [done|]. rewrite Qmult_1_l. by rewrite Zle_Qle in Hlo. }
  assert (Hx2 : (inject_Z sum / inject_Z n <= 5)%Q).
  { apply Qle_shift_div_r; [done|].
    change 5%Q with (inject_Z 5). rewrite <- inject_Z_mult. by rewrite Zle_Qle in Hhi. }
  set (x := (inject_Z sum / inject_Z n)%Q) in *.
  assert (H3 : (19 # 2 < inject_Z t)%Q) by (qconst; lra).
  assert (H4 : (inject_Z t <= 101 # 2)%Q) by (qconst; lra).
  unfold Qlt, Qle in H3, H4. simpl in H3, H4. lia.
Qed.

(** When every stored rating lies between 1 and 5, as the review schema
    and the routes require, the aggregate of a user is either 0 and 0
    (no active review) or a positive count with an average between 1
    and 5. *)
Theorem average_rating_in_range (d : Db) (u : N) :
  (forall id v, reviews d !! id = Some v -> (1 <= Review.rating v <= 5)%Z) ->
  (totalReviews (calculateUserRating u d) = 0%Z
   /\ averageRating (calculateUserRating u d) = 0%Q)
  \/ ((0 < totalReviews (calculateUserRating u d))%Z
      /\ (1 <= averageRating (calculateUserRating u d))%Q
      /\ (averageRating (calculateUserRating u d) <= 5)%Q).
Proof.
  intros Hrange. rewrite calculateUserRating_stats.
  assert (Hall : Forall (fun v => (1 <= Review.rating v <= 5)%Z) (match_stage u d)).
  { apply Forall_forall. intros v Hv. unfold match_stage in Hv.
    apply list_elem_of_filter in Hv as [_ Hv].
    apply list_elem_of_fmap in Hv as ([id v'] & -> & Hin).
    apply elem_of_map_to_list in Hin. by apply (Hrange id). }
  pose proof (sum_ratings_bounds _ Hall) as Hsum.
  destruct (length (match_stage u d)) as [|n] eqn:Hlen; [by left|right].
  cbn [rating_of_stats totalReviews averageRating].
  split; [lia|].
  pose proof (rounded_mean_bounds (sum_ratings (match_stage u d)) (Z.of_nat (S n))
                ltac:(lia) Hsum) as [Hlo Hhi].
  set (t := Math_round _) in *.
  rewrite Zle_Qle in Hlo, Hhi.
  change (inject_Z 10) with 10%Q in *. change (inject_Z 50) with 50%Q in Hhi.
  split; qconst; lra.
Qed.

Lemma average_rating_in_range_witness :
  (1 <= averageRating (calculateUserRating 1 db4))%Q.
Proof.
  destruct (average_rating_in_range db4 1%N) as [[H _]|(_ & H & _)].
  - intros id v Hv.
    assert (Hrev : reviews db4 = {[ 0%N := Review.mk 2 1 0 4 "" true ]})
      by (vm_compute; reflexivity).
    rewrite Hrev in Hv. apply lookup_singleton_Some in Hv as [_ <-]. simpl. lia.
  - vm_compute in H. discriminate.
  - exact H.
Defined.

(** ** Listing the reviews of a user *)

(** The reviews list reports one number of reviews twice, as
    [ratingStats.totalReviews] and as [pagination.totalReviews]: the two
    always agree. *)
Theorem user_reviews_counts_agree (d : Db) (u : N) (page limit : Z) :
  totalReviews (getUserReviews_stats u page limit d).1
  = total (getUserReviews_stats u page limit d).2.
Proof.
  unfold getUserReviews_stats, pagination, countDocuments. cbn [fst snd total].
  rewrite calculateUserRating_stats, totalReviews_of_stats.
  unfold match_stage. rewrite filter_fmap_comm, length_fmap. do 2 f_equal.
  apply list_filter_iff. intros [id v]. unfold userReviews_query. cbn [snd].
  rewrite andb_true_iff, bool_decide_eq_true. done.
Qed.

(** ** Pagination *)

Lemma Math_ceil_div (count limit : Z) :
  (0 < limit)%Z ->
  ((Math_ceil (inject_Z count / inject_Z limit) - 1) * limit < count
   <= Math_ceil (inject_Z count / inject_Z limit) * limit)%Z.
Proof.
  intros Hl. unfold Math_ceil, Qceiling.
  assert (Heq : (- (inject_Z count / inject_Z limit)
                 == inject_Z (- count) / inject_Z limit)%Q).
  { rewrite inject_Z_opp. unfold Qdiv. ring. }
  rewrite Heq, <- Zdiv_Qdiv.
  pose proof (Z.div_mod (- count) limit ltac:(lia)) as Hdm.
  pose proof (Z.mod_pos_bound (- count) limit Hl) as Hmod.
  nia.
Qed.

Lemma skip_limit_nonempty {A : Type} (page limit : Z) (l : list A) :
  (1 <= limit)%Z -> (1 <= page)%Z ->
  skip_limit page limit l <> [] <-> ((page - 1) * limit < Z.of_nat (length l))%Z.
Proof.
  intros Hl Hp. unfold skip_limit.
  rewrite <- length_zero_iff_nil, length_take, length_drop.
  assert (0 <= (page - 1) * limit)%Z by nia.
  set (k := ((page - 1) * limit)%Z) in *. lia.
Qed.

Lemma pages_concat {A : Type} (k : nat) (l : list A) (n : nat) :
  concat ((fun p => take k (drop (p * k) l)) <$> seq 0 n) = take (n * k) l.
Proof.
  induction n as [|n IH]; [by rewrite take_0|].
  rewrite seq_S, fmap_app, concat_app, IH. cbn [fmap list_fmap concat].
  rewrite app_nil_r, take_take_drop. f_equal. lia.
Qed.

(** For a valid page and limit (both at least 1), a page of the result
    holds at least one item exactly when its number is at most
    [totalPages]. *)
Theorem page_nonempty_iff_within_totalPages {A : Type} (page limit : Z) (l : list A) :
  (1 <= limit)%Z -> (1 <= page)%Z ->
  skip_limit page limit l <> []
  <-> (page <= totalPages (pagination page limit (Z.of_nat (length l))))%Z.
Proof.
  intros Hl Hp. rewrite skip_limit_nonempty by done.
  unfold pagination. cbn [totalPages].
  pose proof (Math_ceil_div (Z.of_nat (length l)) limit ltac:(lia)) as [H1 H2].
  split; intros H; nia.
Qed.

Lemma page_nonempty_iff_within_totalPages_witness :
  skip_limit 2 2 [1%nat; 2%nat; 3%nat] <> []
  <-> (2 <= totalPages (pagination 2 2 3))%Z.
Proof.
  apply (page_nonempty_iff_within_totalPages 2%Z 2%Z [1%nat; 2%nat; 3%nat]); lia.
Defined.

(** For a valid page and limit, [hasNext] is true exactly when the next
    page holds at least one item. *)
Theorem hasNext_iff_next_page_nonempty {A : Type} (page limit : Z) (l : list A) :
  (1 <= limit)%Z -> (1 <= page)%Z ->
  hasNext (pagination page limit (Z.of_nat (length l))) = true
  <-> skip_limit (page + 1) limit l <> [].
Proof.
  intros Hl Hp. rewrite skip_limit_nonempty by lia.
  unfold pagination. cbn [hasNext]. rewrite Z.ltb_lt.
  pose proof (Math_ceil_div (Z.of_nat (length l)) limit ltac:(lia)) as [H1 H2].
  split; intros H; nia.
Qed.

Lemma hasNext_iff_next_page_nonempty_witness :
  hasNext (pagination 1 2 3) = true <-> skip_limit 2 2 [1%nat; 2%nat; 3%nat] <> [].
Proof.
  apply (hasNext_iff_next_page_nonempty 1%Z 2%Z [1%nat; 2%nat; 3%nat]); lia.
Defined.

(** For a valid limit, the pages 1 to [totalPages], one after the
    other, are the whole result: no item is lost or shown twice. *)
Theorem pages_cover_the_list {A : Type} (limit : Z) (l : list A) :
  (1 <= limit)%Z ->
  concat ((fun p => skip_limit (Z.of_nat p + 1) limit l)
            <$> seq 0 (Z.to_nat (totalPages (pagination 1 limit (Z.of_nat (length l))))))
  = l.
Proof.
  intros Hl. unfold pagination. cbn [totalPages].
  pose proof (Math_ceil_div (Z.of_nat (length l)) limit ltac:(lia)) as [H1 H2].
  set (T := Math_ceil _) in *.
  assert (HT : (0 <= T)%Z) by nia.
  transitivity (concat ((fun p => take (Z.to_nat limit) (drop (p * Z.to_nat limit) l))
                          <$> seq 0 (Z.to_nat T))).
  { f_equal. apply list_fmap_ext. intros _ p _. unfold skip_limit. do 2 f_equal. nia. }
  rewrite pages_concat. apply take_ge. nia.
Qed.

Lemma pages_cover_the_list_witness :
  concat ((fun p => skip_limit (Z.of_nat p + 1) 2 [1%nat; 2%nat; 3%nat])
            <$> seq 0 (Z.to_nat (totalPages (pagination 1 2 3))))
  = [1%nat; 2%nat; 3%nat].
Proof.
  apply (pages_cover_the_list 2%Z [1%nat; 2%nat; 3%nat]). lia.
Defined.

(** * Properties of the book routes *)

Lemma countDocuments_zero {A : Type} (query : A -> bool) (c : gmap N A) :
  (0 <? countDocuments query c)%Z = false
  <-> forall i a, c !! i = Some a -> query a = false.
Proof.
  rewrite <- findOne_None. unfold countDocuments, findOne.
  rewrite head_None, Z.ltb_ge.
  destruct (filter _ _); simpl; split; intros; try done; lia.
Qed.

(** A book listed anonymously cannot be deleted through the owner's
    route: whoever asks, the ownership check fails on the null owner and
    the request ends in the 500 reply with nothing written. *)
Theorem deleteBook_anonymous_book (d : Db) (actor id : N) (b : Book.t) :
  books d !! id = Some b ->
  Book.owner b = None ->
  deleteBook actor id d = (BookServerError, d).
Proof.
  intros Hb Ho. unfold deleteBook, deleteBook_try, Book.canEdit. by rewrite Hb, Ho.
Qed.

Lemma deleteBook_anonymous_book_witness :
  deleteBook 2 31 db_anon = (BookServerError, db_anon).
Proof.
  apply (deleteBook_anonymous_book db_anon 2%N 31%N (book_of None)); reflexivity.
Defined.

(** A delete by the owner marks the book inactive and writes nothing
    else: swaps that reference the book stay as they are.  Afterwards
    the book can neither be requested nor offered in a new swap, yet the
    book route still serves it. *)
Theorem deleteBook_success_effect (d : Db) (actor id : N) :
  (deleteBook actor id d).1 = BookDeleted ->
  let d' := (deleteBook actor id d).2 in
  exists b,
    books d !! id = Some b
    /\ Book.owner b = Some actor
    /\ books d' = <[id := Book_set_isActive false b]> (books d)
    /\ swaps d' = swaps d /\ users d' = users d /\ reviews d' = reviews d
    /\ (forall a ob msg now,
          createSwap a id ob msg now d' = (RequestedBookNotAvailable, d'))
    /\ (forall a rb msg now,
          (createSwap a rb id msg now d').2 = d'
          /\ kind (createSwap a rb id msg now d').1 = Some PreconditionFailed)
    /\ (getBook id d').1 = Fetched (Book_inc_viewCount (Book_set_isActive false b)).
Proof.
  intros Hok d'.
  assert (Hrun : exists b, books d !! id = Some b /\ Book.owner b = Some actor
            /\ deleteBook actor id d
               = (BookDeleted, Book_save id (Book_set_isActive false b) d)).
  { revert Hok. unfold deleteBook, deleteBook_try, Book.canEdit.
    destruct (books d !! id) as [b|]; [|discriminate].
    destruct (Book.owner b) as [o|] eqn:Hown; [|discriminate].
    destruct (bool_decide (o = actor)) eqn:Ho; [|discriminate].
    apply bool_decide_eq_true_1 in Ho. subst o. intros _. by exists b. }
  destruct Hrun as (b & Hb & Ho & Hrun). subst d'. rewrite Hrun. cbn [snd].
  exists b. unfold Book_save.
  set (d' := with_books (insert id (Book_set_isActive false b)) d).
  assert (Hb' : books d' !! id = Some (Book_set_isActive false b))
    by (subst d'; cbn; by rewrite lookup_insert_eq).
  repeat split; try done.
  - intros a ob msg now. unfold createSwap, createSwap_try. by rewrite Hb'.
  - unfold createSwap, createSwap_try. destruct (books d' !! rb) as [rbk|]; [|done].
    destruct (negb (Book.isActive rbk) || negb (Book.isAvailable rbk)); [done|].
    by rewrite Hb'.
  - unfold createSwap, createSwap_try. destruct (books d' !! rb) as [rbk|]; [|done].
    destruct (negb (Book.isActive rbk) || negb (Book.isAvailable rbk)); [done|].
    by rewrite Hb'.
  - unfold getBook. by rewrite Hb'.
Qed.

Lemma deleteBook_success_effect_witness :
  createSwap 2 11 12 "" 1000 (deleteBook 1 11 db0).2
  = (RequestedBookNotAvailable, (deleteBook 1 11 db0).2).
Proof.
  destruct (deleteBook_success_effect db0 1%N 11%N) as (b & _ & _ & _ & _ & _ & _ & H & _).
  - vm_compute. reflexivity.
  - exact (H 2%N 12%N "" 1000%Z).
Defined.

(** The admin's delete succeeds exactly when the book exists, is active
    and is referenced, as requested or offered book, by no swap in
    status pending or accepted. *)
Theorem adminDeleteBook_guard (d : Db) (id : N) :
  (adminDeleteBook id d).1 = BookDeleted
  <-> exists b, books d !! id = Some b
        /\ Book.isActive b = true
        /\ forall i s, swaps d !! i = Some s ->
             Swap.requestedBook s = id \/ Swap.offeredBook s = id ->
             Swap.status s <> pending /\ Swap.status s <> accepted.
Proof.
  assert (Hq : forall s, activeSwaps_query id s = false
    <-> (Swap.requestedBook s = id \/ Swap.offeredBook s = id ->
         Swap.status s <> pending /\ Swap.status s <> accepted)).
  { intros s. unfold activeSwaps_query.
    rewrite <- not_true_iff_false, andb_true_iff, !orb_true_iff, !bool_decide_eq_true.
    tauto. }
  unfold adminDeleteBook.
  destruct (books d !! id) as [b|]; [|split; [discriminate | by intros (? & ? & _)]].
  destruct (Book.isActive b) eqn:Hact; cbn [negb];
    [|split; [discriminate | intros (b' & [= <-] & ? & _); congruence]].
  destruct (0 <? countDocuments (activeSwaps_query id) (swaps d))%Z eqn:Hc; cbn [fst].
  - split; [discriminate|]. intros (b' & _ & _ & Hnone).
    assert (Hz : (0 <? countDocuments (activeSwaps_query id) (swaps d))%Z = false).
    { apply countDocuments_zero. intros i s Hs. apply Hq. by apply (Hnone i s). }
    congruence.
  - split; [|done]. intros _. exists b. split; [done|]. split; [done|].
    intros i s Hs. apply Hq. by apply (proj1 (countDocuments_zero _ _) Hc i s).
Qed.

(** A book that a pending or accepted swap references is never removed
    by the admin's delete: the request is rejected and writes nothing. *)
Theorem adminDeleteBook_blocked_by_live_swap (d : Db) (id i : N) (s : Swap.t) :
  swaps d !! i = Some s ->
  Swap.requestedBook s = id \/ Swap.offeredBook s = id ->
  Swap.status s = pending \/ Swap.status s = accepted ->
  (adminDeleteBook id d).2 = d
  /\ ((adminDeleteBook id d).1 = BookHasActiveSwaps
      \/ (adminDeleteBook id d).1 = BookNotFound).
Proof.
  intros Hs Hb Hst. unfold adminDeleteBook.
  destruct (books d !! id) as [b|]; [|by split; [|right]].
  destruct (negb (Book.isActive b)); [by split; [|right]|].
  destruct (0 <? countDocuments (activeSwaps_query id) (swaps d))%Z eqn:Hc;
    [by split; [|left]|].
  exfalso. pose proof (proj1 (countDocuments_zero _ _) Hc i s Hs) as Hq.
  unfold activeSwaps_query in Hq.
  apply andb_false_iff in Hq as [Hq|Hq]; apply orb_false_iff in Hq as [H1 H2];
    apply bool_decide_eq_false_1 in H1; apply bool_decide_eq_false_1 in H2; tauto.
Qed.

Lemma adminDeleteBook_blocked_by_live_swap_witness :
  (adminDeleteBook 11 db1).2 = db1
  /\ (adminDeleteBook 11 db1).1 = BookHasActiveSwaps.
Proof.
  destruct (adminDeleteBook_blocked_by_live_swap db1 11%N 0%N
    (Swap.mk 2 1 11 12 pending "" "" None None None 604801000 true)) as [H1 H2].
  - vm_compute. reflexivity.
  - left. reflexivity.
  - left. reflexivity.
  - split; [exact H1|]. destruct H2 as [H2|H2]; [exact H2|].
    vm_compute in H2. discriminate.
Defined.

Lemma round_to_double_exact (z : Z) :
  (Z.abs z <= 2 ^ 53)%Z -> round_to_double z = z.
Proof.
  intros Hz. unfold round_to_double.
  by rewrite (proj2 (Z.leb_le _ _) Hz).
Qed.

(** Serving a book [n] times adds [n] to its view counter and changes
    nothing else in the database, as long as the counter stays within
    the integers a double holds exactly, from -2^53 to 2^53.  At 2^53
    the counter stops: serving the book writes nothing. *)
Theorem getBook_counts_views (d : Db) (id : N) (b : Book.t) (n : nat) :
  books d !! id = Some b ->
  ((- 2 ^ 53 <= Book.viewCount b)%Z ->
   (Book.viewCount b + Z.of_nat n <= 2 ^ 53)%Z ->
   Nat.iter n (fun x => (getBook id x).2) d
   = with_books (insert id
       (Book.mk (Book.title b) (Book.owner b) (Book.ownerEmail b) (Book.isAvailable b)
                (Book.isActive b) (Book.viewCount b + Z.of_nat n)%Z (Book.swapCount b))) d)
  /\ (Book.viewCount b = (2 ^ 53)%Z -> getBook id d = (Fetched b, d)).
Proof.
  intros Hb. split.
  - intros Hlo. induction n as [|n IH]; intros Hhi.
    + simpl. destruct d as [bs us ss rs]. unfold with_books. cbn in *.
      f_equal. rewrite Z.add_0_r. symmetry. apply insert_id. by destruct b.
    + rewrite Nat.iter_succ, IH by lia. unfold getBook. cbn [books with_books].
      rewrite lookup_insert_eq. cbn [snd]. unfold Book_save, with_books. cbn.
      f_equal. rewrite insert_insert_eq. f_equal. unfold Book_inc_viewCount.
      cbn [Book.title Book.owner Book.ownerEmail Book.isAvailable Book.isActive
           Book.viewCount Book.swapCount].
      rewrite round_to_double_exact by lia. f_equal. lia.
  - intros Hvc. unfold getBook. rewrite Hb.
    assert (Hsame : Book_inc_viewCount b = b).
    { unfold Book_inc_viewCount. rewrite Hvc.
      replace (round_to_double (2 ^ 53 + 1)) with (2 ^ 53)%Z
        by (vm_compute; reflexivity).
      rewrite <- Hvc. by destruct b. }
    rewrite Hsame. f_equal. unfold Book_save, with_books.
    destruct d as [bs us ss rs]. cbn in *. f_equal. by apply insert_id.
Qed.

Lemma getBook_counts_views_witness :
  Book.viewCount <$> books (Nat.iter 3 (fun x => (getBook 11 x).2) db0) !! 11%N
  = Some 3%Z.
Proof.
  destruct (getBook_counts_views db0 11%N (book_of (Some 1%N)) 3) as [H _].
  - reflexivity.
  - rewrite H.
    + vm_compute. reflexivity.
    + vm_compute. discriminate.
    + vm_compute. discriminate.
Defined.

(** * Stored reviews *)

(** In every state reached from one without reviews, each stored review,
    active or not, names a swap that is stored and completed and whose
    two parties are the reviewer and the reviewee, one as requester and
    the other as owner. *)
Theorem stored_reviews_are_well_formed (d0 d : Db) (id : N) (v : Review.t) :
  reviews d0 = ∅ ->
  rtc step d0 d ->
  reviews d !! id = Some v ->
  exists s, swaps d !! Review.swap v = Some s
    /\ Swap.status s = completed
    /\ ((Swap.requester s = Review.reviewee v /\ Swap.owner s = Review.reviewer v)
        \/ (Swap.owner s = Review.reviewee v /\ Swap.requester s = Review.reviewer v)).
Proof.
  intros Hempty Hsteps Hv.
  exact (reviews_ok_reachable d0 d Hsteps (reviews_ok_empty d0 Hempty) id v Hv).
Qed.

Lemma stored_reviews_are_well_formed_witness :
  exists s, swaps db5 !! 0%N = Some s /\ Swap.status s = completed.
Proof.
  destruct (stored_reviews_are_well_formed db3 db5 0%N (Review.mk 2 1 0 4 "" false))
    as (s & H1 & H2 & _).
  - reflexivity.
  - eapply rtc_l; [apply (step_createReview 2 0 1 4 "" db3)|].
    apply rtc_once. apply (step_deleteReview 2 user 0 db4).
  - vm_compute. reflexivity.
  - exists s. split; [exact H1 | exact H2].
Defined.
